(** * PINTS optimisers: the ask-and-tell engine of [pints/_optimisers/__init__.py]

    A shallow embedding of the [Optimiser] base classes, the [Optimisation]
    driver and the [TriangleWaveTransform], followed by the properties the
    specification states about them.

    Number model.  Python integers are [Z].  Scores handled by the driver
    ([fbest], the threshold, the significance threshold) are binary64 floats,
    modelled by Rocq's primitive floats, so that [float('inf')], NaN and the
    comparisons on them are the ones the interpreter performs.  The numpy
    arrays of parameters ([x0], [sigma0], the boundaries) are modelled in
    exact rational arithmetic over [Q]: rounding of array arithmetic is not
    part of this model. *)

From Stdlib Require Import ZArith QArith Qround Qabs Floats List String Bool.
From Stdlib Require Import Lia Lqa DecimalString.
Import ListNotations.

Local Open Scope Z_scope.

(** ** Python values shared by all classes *)

Module Py.

(** The exceptions raised in this module of PINTS. *)
Inductive exn : Type :=
| ValueError (msg : string)
| Exception (msg : string).

(** A call either returns a value or raises. *)
Inductive result (A : Type) : Type :=
| Ok (a : A)
| Raise (e : exn).

Arguments Ok {A} a.
Arguments Raise {A} e.

Definition bind {A B : Type} (r : result A) (k : A -> result B) : result B :=
  match r with
  | Ok a => k a
  | Raise e => Raise e
  end.

(** The value of a call, when the call returns. *)
Definition get {A : Type} (r : result A)
  : match r with Ok _ => A | Raise _ => unit end :=
  match r with
  | Ok a => a
  | Raise _ => tt
  end.

(** [str(n)] for an integer. *)
Definition str_int (n : Z) : string := NilZero.string_of_int (Z.to_int n).

(** Truth value of a string: only the empty string is false. *)
Definition truthy_str (s : string) : bool :=
  match s with
  | EmptyString => false
  | String _ _ => true
  end.

(** A boolean used as a number, as numpy does in [a * (y < r)]. *)
Definition b2q (b : bool) : Q := if b then 1%Q else 0%Q.

End Py.

Import Py.
Notation "x <- r ;; k" := (bind r (fun x => k))
  (at level 61, r at next level, right associativity).

(** A point of the search space as the driver sees it. *)
Definition point : Type := list float.

(** ** numpy arrays in exact arithmetic

    One-dimensional arrays of equal length, combined entry by entry.
    Broadcasting between other shapes does not occur in the code below. *)

Module Np.

Definition array : Type := list Q.

Fixpoint map2 {A B C : Type} (f : A -> B -> C) (a : list A) (b : list B)
  : list C :=
  match a, b with
  | x :: a, y :: b => f x y :: map2 f a b
  | _, _ => []
  end.


Definition add : array -> array -> array := map2 Qplus.
Definition sub : array -> array -> array := map2 Qminus.
Definition scale (c : Q) : array -> array := map (Qmult c).
Definition abs : array -> array := map Qabs.

(** [a == c] for a number [c], an array of booleans used as numbers. *)
Definition eq_scalar (a : array) (c : Q) : array :=
  map (fun x => b2q (Qeq_bool x c)) a.


End Np.

(** ** Boundaries, an external collaborator seen through its interface *)

Module Boundaries.

Record t : Type := {
  n_parameters : Z;
  check : Np.array -> bool;
  lower : Np.array;
  upper : Np.array;
  range : Np.array
}.

End Boundaries.

(** ** Class [Optimiser] *)

Module Optimiser.

(** The [sigma0] argument: [None], a scalar, or a vector. *)
Inductive sigma0_arg : Type :=
| Sigma0None
| Sigma0Scalar (s : Q)
| Sigma0Vector (v : list Q).

Record t : Type := {
  _dimension : Z;
  _boundaries : option Boundaries.t;
  _x0 : list Q;
  _sigma0 : list Q
}.

(** [(1 / 6) * self._boundaries.range()] *)
Definition sigma0_from_boundaries (b : Boundaries.t) : Np.array :=
  Np.scale (1 / 6) (Boundaries.range b).

(** [(1 / 3) * np.abs(self._x0)], then [self._sigma0 += (self._sigma0 == 0)] *)
Definition sigma0_from_x0 (x0 : Np.array) : Np.array :=
  let sigma0 := Np.scale (1 / 3) (Np.abs x0) in
  Np.add sigma0 (Np.eq_scalar sigma0 0).

(** The three branches on [sigma0] of [__init__]. *)
Definition derive_sigma0 (dimension : Z) (x0 : list Q)
  (boundaries : option Boundaries.t) (sigma0 : sigma0_arg)
  : result (list Q) :=
  match sigma0 with
  | Sigma0None =>
      match boundaries with
      | Some b => Ok (sigma0_from_boundaries b)
      | None => Ok (sigma0_from_x0 x0)
      end
  | Sigma0Scalar s =>
      if Qle_bool s 0 then
        Raise (ValueError
          "Initial standard deviation must be greater than zero.")
      else Ok (map (fun one => one * s)%Q (repeat 1%Q (Z.to_nat dimension)))
  | Sigma0Vector v =>
      if negb (Z.of_nat (List.length v) =? dimension) then
        Raise (ValueError
          ("Initial standard deviation must be None, scalar, or have"
           ++ " dimension " ++ str_int dimension ++ ".")%string)
      else if existsb (fun s => Qle_bool s 0) v then
        Raise (ValueError
          "Initial standard deviations must be greater than zero.")
      else Ok v
  end.

Definition __init__ (x0 : list Q) (sigma0 : sigma0_arg)
  (boundaries : option Boundaries.t) : result t :=
  let dimension := Z.of_nat (List.length x0) in
  if dimension <? 1 then
    Raise (ValueError "Problem dimension must be greater than zero.")
  else if match boundaries with
          | Some b => negb (Boundaries.n_parameters b =? dimension)
          | None => false
          end then
    Raise (ValueError
      "Boundaries must have same dimension as starting point.")
  else if match boundaries with
          | Some b => negb (Boundaries.check b x0)
          | None => false
          end then
    Raise (ValueError "Initial position must lie within given boundaries.")
  else
    s <- derive_sigma0 dimension x0 boundaries sigma0 ;;
    Ok {| _dimension := dimension; _boundaries := boundaries;
          _x0 := x0; _sigma0 := s |}.

(** *** The ask-and-tell interface

    The methods a concrete search algorithm provides, over its own state
    type [S].  [ask] and [tell] mutate the optimiser, so they return the new
    state. *)

(** What [stop()] returns: [False], or a short message. *)
Inductive stop_result : Type :=
| StopFalse
| StopMessage (msg : string).

(** [if error:] on the value returned by [stop()]. *)
Definition stop_truthy (r : stop_result) : bool :=
  match r with
  | StopFalse => false
  | StopMessage msg => truthy_str msg
  end.

(** [str(error)] on the value returned by [stop()]. *)
Definition stop_str (r : stop_result) : string :=
  match r with
  | StopFalse => "False"
  | StopMessage msg => msg
  end.

Class AskTell (S : Type) : Type := {
  ask : S -> list point * S;
  tell : list float -> S -> S;
  fbest : S -> float;
  xbest : S -> point;
  stop : S -> stop_result;
  name : S -> string
}.

(** [Optimiser.stop], the default of the base class: [return False]. *)
Definition default_stop {S : Type} (_ : S) : stop_result := StopFalse.

End Optimiser.

(** ** Class [PopulationBasedOptimiser] *)

Module PopulationBasedOptimiser.

(** The object: the fields of the base class, the population size, and the
    fields [ext] a concrete algorithm adds. *)
Record t (E : Type) : Type := {
  base : Optimiser.t;
  _population_size : option Z;
  ext : E
}.

Arguments base {E} _.
Arguments _population_size {E} _.
Arguments ext {E} _.

(** The two methods the base classes leave to the algorithm. *)
Class Algorithm (E : Type) : Type := {
  running : t E -> bool;
  _suggested_population_size : t E -> Z
}.

Section Methods.

Context {E : Type} `{Algorithm E}.

Definition __init__ (x0 : list Q) (sigma0 : Optimiser.sigma0_arg)
  (boundaries : option Boundaries.t) (e : E) : result (t E) :=
  b <- Optimiser.__init__ x0 sigma0 boundaries ;;
  let self := {| base := b; _population_size := None; ext := e |} in
  Ok {| base := b;
        _population_size := Some (_suggested_population_size self);
        ext := e |}.

Definition population_size (self : t E) : option Z :=
  _population_size self.

Definition set_population_size (self : t E) (population_size : option Z)
  : result (t E) :=
  if running self then
    Raise (Exception "Cannot change population size during run.")
  else
    checked <-
      match population_size with
      | Some n =>
          if n <? 1 then
            Raise (ValueError "Population size must be at least 1.")
          else Ok (Some n)
      | None => Ok None
      end ;;
    Ok {| base := base self; _population_size := checked;
          ext := ext self |}.

Definition suggested_population_size (self : t E)
  (round_up_to_multiple_of : option Z) : Z :=
  let population_size := _suggested_population_size self in
  match round_up_to_multiple_of with
  | Some n =>
      if n >? 1 then n * (((population_size - 1) / n) + 1)
      else population_size
  | None => population_size
  end.

End Methods.

End PopulationBasedOptimiser.

(** ** Class [Optimisation], the driver *)

Module Optimisation.

Import Optimiser.

(** The objective: an [ErrorMeasure] to minimise or a [LogPDF] to maximise,
    each with its [n_parameters()] and its [__call__]. *)
Inductive objective : Type :=
| ErrorMeasure (n : Z) (call : point -> float)
| LogPDF (n : Z) (call : point -> float).

Definition n_parameters (f : objective) : Z :=
  match f with
  | ErrorMeasure n _ => n
  | LogPDF n _ => n
  end.

(** [isinstance(function, pints.LogPDF)] *)
Definition is_LogPDF (f : objective) : bool :=
  match f with
  | ErrorMeasure _ _ => false
  | LogPDF _ _ => true
  end.

(** Modelled from the spec: the class [pints.ProbabilityBasedError] that
    wraps a [LogPDF] is not among the sources.  The specification says that
    the values of a density to maximise are negated into the optimiser, so
    the wrapper evaluates to the negated log-density. *)
Definition ProbabilityBasedError (log_pdf : point -> float)
  : point -> float :=
  fun x => (- log_pdf x)%float.

Record t (S : Type) : Type := {
  _minimising : bool;
  _function : point -> float;
  _optimiser : S;
  _log_to_screen : bool;
  _log_filename : option string;
  _log_csv : bool;
  _max_iterations : option Z;
  _max_unchanged_iterations : option Z;
  _min_significant_change : float;
  _threshold : option float
}.

Arguments _minimising {S} _.
Arguments _function {S} _.
Arguments _optimiser {S} _.
Arguments _log_to_screen {S} _.
Arguments _log_filename {S} _.
Arguments _log_csv {S} _.
Arguments _max_iterations {S} _.
Arguments _max_unchanged_iterations {S} _.
Arguments _min_significant_change {S} _.
Arguments _threshold {S} _.

Section Configuration.

Context {S : Type}.

Definition set_log_to_file (self : t S) (filename : option string)
  (csv : bool) : t S :=
  let truthy := match filename with
                | Some f => truthy_str f
                | None => false
                end in
  {| _minimising := _minimising self; _function := _function self;
     _optimiser := _optimiser self; _log_to_screen := _log_to_screen self;
     _log_filename := if truthy then filename else None;
     _log_csv := if truthy then csv else false;
     _max_iterations := _max_iterations self;
     _max_unchanged_iterations := _max_unchanged_iterations self;
     _min_significant_change := _min_significant_change self;
     _threshold := _threshold self |}.

Definition set_log_to_screen (self : t S) (enabled : bool) : t S :=
  {| _minimising := _minimising self; _function := _function self;
     _optimiser := _optimiser self; _log_to_screen := enabled;
     _log_filename := _log_filename self; _log_csv := _log_csv self;
     _max_iterations := _max_iterations self;
     _max_unchanged_iterations := _max_unchanged_iterations self;
     _min_significant_change := _min_significant_change self;
     _threshold := _threshold self |}.

Definition set_max_iterations (self : t S) (iterations : option Z)
  : result (t S) :=
  if match iterations with
     | Some n => n <? 0
     | None => false
     end then
    Raise (ValueError "Maximum number of iterations cannot be negative.")
  else
    Ok {| _minimising := _minimising self; _function := _function self;
          _optimiser := _optimiser self;
          _log_to_screen := _log_to_screen self;
          _log_filename := _log_filename self; _log_csv := _log_csv self;
          _max_iterations := iterations;
          _max_unchanged_iterations := _max_unchanged_iterations self;
          _min_significant_change := _min_significant_change self;
          _threshold := _threshold self |}.

Definition set_max_unchanged_iterations (self : t S)
  (iterations : option Z) (threshold : float) : result (t S) :=
  if match iterations with
     | Some n => n <? 0
     | None => false
     end then
    Raise (ValueError "Maximum number of iterations cannot be negative.")
  else if (threshold <? 0)%float then
    Raise (ValueError "Minimum significant change cannot be negative.")
  else
    Ok {| _minimising := _minimising self; _function := _function self;
          _optimiser := _optimiser self;
          _log_to_screen := _log_to_screen self;
          _log_filename := _log_filename self; _log_csv := _log_csv self;
          _max_iterations := _max_iterations self;
          _max_unchanged_iterations := iterations;
          _min_significant_change := threshold;
          _threshold := _threshold self |}.

Definition set_threshold (self : t S) (threshold : option float) : t S :=
  {| _minimising := _minimising self; _function := _function self;
     _optimiser := _optimiser self; _log_to_screen := _log_to_screen self;
     _log_filename := _log_filename self; _log_csv := _log_csv self;
     _max_iterations := _max_iterations self;
     _max_unchanged_iterations := _max_unchanged_iterations self;
     _min_significant_change := _min_significant_change self;
     _threshold := threshold |}.



Definition threshold (self : t S) : option float := _threshold self.


(** The constructor.  [method] is the optimiser class applied to
    [(x0, sigma0, boundaries)]; the default method (CMA-ES) and the
    parallel evaluator are not among the sources, and both evaluators
    return the scores of the points in the order of the points. *)
Definition __init__ (function : objective) (x0 : point)
  (method : point -> result S) : result (t S) :=
  if negb (n_parameters function =? Z.of_nat (List.length x0)) then
    Raise (ValueError
      ("Starting point must have same dimension as function to"
       ++ " optimise.")%string)
  else
    let minimising := negb (is_LogPDF function) in
    let f := match function with
             | ErrorMeasure _ call => call
             | LogPDF _ call => ProbabilityBasedError call
             end in
    o <- method x0 ;;
    let self :=
      {| _minimising := minimising; _function := f; _optimiser := o;
         _log_to_screen := true; _log_filename := None; _log_csv := false;
         _max_iterations := None;
         _max_unchanged_iterations := None;
         _min_significant_change := 1%float;
         _threshold := None |} in
    self <- set_max_iterations self (Some 10000) ;;
    (* [1e-11], written as the binary64 value the interpreter reads *)
    self <- set_max_unchanged_iterations self (Some 200)
              0x1.5fd7fe1796495p-37%float ;;
    Ok self.

End Configuration.

(** *** [run()] *)

(** The halt messages, by the criterion that writes them:
    - ['Halting: Maximum number of iterations (' + str(iteration)
       + ') reached.']
    - ['Halting: No significant change for ' + str(unchanged_iterations)
       + ' iterations.']
    - ['Halting: Objective function crossed threshold: '
       + str(self._threshold) + '.']
    - ['Halting: ' + str(error)] *)
Inductive halt_message : Type :=
| MaxIterationsReached (iteration : Z)
| NoSignificantChange (unchanged_iterations : Z)
| ThresholdCrossed (threshold : float)
| OptimiserError (error : string).

(** The text of a message, given [str] on floats. *)
Definition halt_text (str_float : float -> string) (m : halt_message)
  : string :=
  match m with
  | MaxIterationsReached i =>
      "Halting: Maximum number of iterations (" ++ str_int i ++ ") reached."
  | NoSignificantChange u =>
      "Halting: No significant change for " ++ str_int u ++ " iterations."
  | ThresholdCrossed th =>
      "Halting: Objective function crossed threshold: " ++ str_float th
      ++ "."
  | OptimiserError e => "Halting: " ++ e
  end%string.

(** A row written by [logger.log(iteration, evaluations, fbest_user)]. *)
Record log_row : Type := {
  row_iteration : Z;
  row_evaluations : Z;
  row_best : float
}.

(** The local variables of [run()]. *)
Record run_state (S : Type) : Type := {
  the_optimiser : S;
  iteration : Z;
  evaluations : Z;
  unchanged_iterations : Z;
  fbest : float;
  fbest_user : float;
  next_message : Z;
  running : bool;
  halt : option halt_message;
  rows : list log_row
}.

Arguments the_optimiser {S} _.
Arguments iteration {S} _.
Arguments evaluations {S} _.
Arguments unchanged_iterations {S} _.
Arguments fbest {S} _.
Arguments fbest_user {S} _.
Arguments next_message {S} _.
Arguments running {S} _.
Arguments halt {S} _.
Arguments rows {S} _.

(** How a bounded execution of [run()] ends. *)
Inductive outcome (A : Type) : Type :=
| Returns (a : A)
| Raises (e : exn)
| OutOfFuel.

Arguments Returns {A} a.
Arguments Raises {A} e.
Arguments OutOfFuel {A}.

(** What [run()] hands to the caller: the returned pair, the halt message
    printed when logging to screen, and the rows logged. *)
Record run_output : Type := {
  returned : point * float;
  printed : option halt_message;
  logged : list log_row
}.

Section Run.

Context {S : Type} `{AskTell S}.

Variable self : t S.

Definition is_not_None {A : Type} (o : option A) : bool :=
  match o with
  | Some _ => true
  | None => false
  end.

Definition has_stopping_criterion : bool :=
  ((false || is_not_None (_max_iterations self))
   || is_not_None (_max_unchanged_iterations self))
  || is_not_None (_threshold self).

(** [logging = self._log_to_screen or self._log_filename] *)
Definition logging : bool :=
  _log_to_screen self || match _log_filename self with
                         | Some f => truthy_str f
                         | None => false
                         end.

Definition message_warm_up : Z := 3.
Definition message_interval : Z := 20.

(** [fbest if self._minimising else -fbest] *)
Definition user_value (f : float) : float :=
  if _minimising self then f else (- f)%float.

Definition initial_state : run_state S :=
  {| the_optimiser := _optimiser self;
     iteration := 0; evaluations := 0; unchanged_iterations := 0;
     fbest := infinity; fbest_user := user_value infinity;
     next_message := 0; running := true; halt := None; rows := [] |}.

(** "Check if new best found", on [fnew = self._optimiser.fbest()]. *)
Definition update_best (fnew : float) (st : run_state S) : run_state S :=
  if (fnew <? fbest st)%float then
    {| the_optimiser := the_optimiser st;
       iteration := iteration st; evaluations := evaluations st;
       unchanged_iterations :=
         if (abs (fnew - fbest st) <? _min_significant_change self)%float
         then unchanged_iterations st + 1
         else 0;
       fbest := fnew; fbest_user := user_value fnew;
       next_message := next_message st; running := running st;
       halt := halt st; rows := rows st |}
  else
    {| the_optimiser := the_optimiser st;
       iteration := iteration st; evaluations := evaluations st;
       unchanged_iterations := unchanged_iterations st + 1;
       fbest := fbest st; fbest_user := fbest_user st;
       next_message := next_message st; running := running st;
       halt := halt st; rows := rows st |}.

(** "Update evaluation count" *)
Definition count_evaluations (fs : list float) (st : run_state S)
  : run_state S :=
  {| the_optimiser := the_optimiser st;
     iteration := iteration st;
     evaluations := evaluations st + Z.of_nat (List.length fs);
     unchanged_iterations := unchanged_iterations st;
     fbest := fbest st; fbest_user := fbest_user st;
     next_message := next_message st; running := running st;
     halt := halt st; rows := rows st |}.

(** "Show progress" *)
Definition show_progress (st : run_state S) : run_state S :=
  if logging && (iteration st >=? next_message st) then
    {| the_optimiser := the_optimiser st;
       iteration := iteration st; evaluations := evaluations st;
       unchanged_iterations := unchanged_iterations st;
       fbest := fbest st; fbest_user := fbest_user st;
       next_message :=
         if iteration st <? message_warm_up then iteration st + 1
         else message_interval * (1 + iteration st / message_interval);
       running := running st; halt := halt st;
       rows := rows st ++ [ {| row_iteration := iteration st;
                               row_evaluations := evaluations st;
                               row_best := fbest_user st |} ] |}
  else st.

(** "Update iteration count" *)
Definition count_iteration (st : run_state S) : run_state S :=
  {| the_optimiser := the_optimiser st;
     iteration := iteration st + 1; evaluations := evaluations st;
     unchanged_iterations := unchanged_iterations st;
     fbest := fbest st; fbest_user := fbest_user st;
     next_message := next_message st; running := running st;
     halt := halt st; rows := rows st |}.

(** [running = False] together with the assignment to [halt_message]. *)
Definition halt_with (m : halt_message) (st : run_state S) : run_state S :=
  {| the_optimiser := the_optimiser st;
     iteration := iteration st; evaluations := evaluations st;
     unchanged_iterations := unchanged_iterations st;
     fbest := fbest st; fbest_user := fbest_user st;
     next_message := next_message st; running := false;
     halt := Some m; rows := rows st |}.

(** The conditions of the four checks, in the order of the source. *)
Definition max_iterations_reached (st : run_state S) : bool :=
  match _max_iterations self with
  | Some n => iteration st >=? n
  | None => false
  end.

Definition max_unchanged_reached (st : run_state S) : bool :=
  match _max_unchanged_iterations self with
  | Some n => unchanged_iterations st >=? n
  | None => false
  end.

Definition threshold_crossed (st : run_state S) : bool :=
  match _threshold self with
  | Some th => (fbest st <? th)%float
  | None => false
  end.

Definition optimiser_stopped (st : run_state S) : bool :=
  stop_truthy (stop (the_optimiser st)).

Definition check_max_iterations (st : run_state S) : run_state S :=
  if max_iterations_reached st
  then halt_with (MaxIterationsReached (iteration st)) st
  else st.

Definition check_max_unchanged (st : run_state S) : run_state S :=
  if max_unchanged_reached st
  then halt_with (NoSignificantChange (unchanged_iterations st)) st
  else st.

Definition check_threshold (st : run_state S) : run_state S :=
  match _threshold self with
  | Some th =>
      if (fbest st <? th)%float then halt_with (ThresholdCrossed th) st
      else st
  | None => st
  end.

Definition check_optimiser (st : run_state S) : run_state S :=
  let error := stop (the_optimiser st) in
  if stop_truthy error then halt_with (OptimiserError (stop_str error)) st
  else st.

(** "Check stopping criteria" *)
Definition check_stopping_criteria (st : run_state S) : run_state S :=
  check_optimiser
    (check_threshold (check_max_unchanged (check_max_iterations st))).

(** The points asked, their scores, and the optimiser after [tell].
    [evaluator.evaluate(xs)] gives the scores of the points in the order of
    the points, whichever evaluator is used. *)
Definition ask_evaluate_tell (st : run_state S) : list float * S :=
  let (xs, o) := ask (the_optimiser st) in
  let fs := map (_function self) xs in
  (fs, tell fs o).

(** The body of [while running] up to "Update iteration count". *)
Definition iterate (st : run_state S) : run_state S :=
  let (fs, o) := ask_evaluate_tell st in
  let st :=
    {| the_optimiser := o;
       iteration := iteration st; evaluations := evaluations st;
       unchanged_iterations := unchanged_iterations st;
       fbest := fbest st; fbest_user := fbest_user st;
       next_message := next_message st; running := running st;
       halt := halt st; rows := rows st |} in
  let st := update_best (Optimiser.fbest o) st in
  let st := count_evaluations fs st in
  let st := show_progress st in
  count_iteration st.

(** One pass through the body of [while running]. *)
Definition loop_body (st : run_state S) : run_state S :=
  check_stopping_criteria (iterate st).

(** [while running: ...], bounded by [fuel] tests of the loop condition.
    The methods of the optimiser and the objective are total functions
    here; what they raise in the source is printed about and raised again
    by the handler around the loop. *)
Fixpoint while_running (fuel : nat) (st : run_state S)
  : option (run_state S) :=
  match fuel with
  | O => None
  | Datatypes.S fuel =>
      if running st then while_running fuel (loop_body st) else Some st
  end.

(** "Log final values and show halt message", and the return. *)
Definition finish (st : run_state S) : run_output :=
  {| returned := (xbest (the_optimiser st), fbest_user st);
     printed := if logging && _log_to_screen self then halt st else None;
     logged :=
       if logging
       then rows st ++ [ {| row_iteration := iteration st;
                            row_evaluations := evaluations st;
                            row_best := fbest_user st |} ]
       else rows st |}.

(** [run()] with the state in which the loop ended. *)
Definition run_loop (fuel : nat) : outcome (run_state S) :=
  if negb has_stopping_criterion then
    Raises (ValueError "At least one stopping criterion must be set.")
  else
    match while_running fuel initial_state with
    | Some st => Returns st
    | None => OutOfFuel
    end.

Definition run (fuel : nat) : outcome run_output :=
  match run_loop fuel with
  | Returns st => Returns (finish st)
  | Raises e => Raises e
  | OutOfFuel => OutOfFuel
  end.

End Run.

End Optimisation.

(** ** Class [TriangleWaveTransform] *)

Module TriangleWaveTransform.

Record t : Type := {
  _lower : Np.array;
  _upper : Np.array;
  _range : Np.array;
  _range2 : Np.array
}.

Definition __init__ (boundaries : Boundaries.t) : t :=
  let lower := Boundaries.lower boundaries in
  let upper := Boundaries.upper boundaries in
  let range := Np.sub upper lower in
  {| _lower := lower; _upper := upper; _range := range;
     _range2 := Np.scale 2 range |}.



End TriangleWaveTransform.

(** * Vocabulary of the properties *)

(** ** Stopping criteria and passes of the loop *)

Section DriverVocabulary.

Import Optimiser Optimisation.

Context {S : Type} `{AskTell S}.

Variable self : t S.

(** The message each criterion writes at a state. *)
Definition message_of_max_iterations (st : run_state S) : halt_message :=
  MaxIterationsReached (iteration st).

Definition message_of_max_unchanged (st : run_state S) : halt_message :=
  NoSignificantChange (unchanged_iterations st).

Definition message_of_threshold (st : run_state S) : option halt_message :=
  option_map ThresholdCrossed (_threshold self).

Definition message_of_optimiser (st : run_state S) : halt_message :=
  OptimiserError (stop_str (stop (the_optimiser st))).

(** Some criterion is satisfied at a state. *)
Definition some_criterion (st : run_state S) : bool :=
  max_iterations_reached self st || max_unchanged_reached self st
  || threshold_crossed self st || optimiser_stopped st.

(** The message of the first satisfied criterion in the order of the
    checks: the reading of the specification. *)
Definition first_satisfied (st : run_state S) : option halt_message :=
  if max_iterations_reached self st
  then Some (message_of_max_iterations st)
  else if max_unchanged_reached self st
  then Some (message_of_max_unchanged st)
  else if threshold_crossed self st then message_of_threshold st
  else if optimiser_stopped st then Some (message_of_optimiser st)
  else None.

(** The message of the last satisfied criterion in the order of the
    checks. *)
Definition last_satisfied (st : run_state S) : option halt_message :=
  if optimiser_stopped st then Some (message_of_optimiser st)
  else if threshold_crossed self st then message_of_threshold st
  else if max_unchanged_reached self st
  then Some (message_of_max_unchanged st)
  else if max_iterations_reached self st
  then Some (message_of_max_iterations st)
  else None.

(** The checks change nothing but [running] and [halt_message]. *)
Definition same_progress (a b : run_state S) : Prop :=
  the_optimiser a = the_optimiser b /\ iteration a = iteration b
  /\ evaluations a = evaluations b
  /\ unchanged_iterations a = unchanged_iterations b
  /\ fbest a = fbest b /\ fbest_user a = fbest_user b
  /\ next_message a = next_message b /\ rows a = rows b.

(** The state after [k] passes through the body. *)
Fixpoint after (k : nat) (st : run_state S) : run_state S :=
  match k with
  | O => st
  | Datatypes.S k => after k (loop_body self st)
  end.

(** The reading "the first satisfied criterion determines the message". *)
Definition keeps_first_message : Prop :=
  forall st : run_state S,
    some_criterion (iterate self st) = true ->
    halt (loop_body self st) = first_satisfied (iterate self st).

(** Only the maximum number of iterations is enabled, and it is [n]. *)
Definition only_max_iterations (n : Z) : Prop :=
  _max_iterations self = Some n
  /\ _max_unchanged_iterations self = None
  /\ _threshold self = None.

(** The reading "the loop executes exactly [max(n, 1)] iterations". *)
Definition makes_max_passes (n : Z) : Prop :=
  forall (fuel : nat) (st : run_state S),
    run_loop self fuel = Returns st -> iteration st = Z.max n 1.

Definition no_criterion_error : exn :=
  ValueError "At least one stopping criterion must be set.".

End DriverVocabulary.

(** ** Rounding and arrays *)

(** [ceil(n / m)] on integers, as the specification writes it. *)
Definition ceil_div (n m : Z) : Z := - ((- n) / m).

Section TransformVocabulary.

Import TriangleWaveTransform.

Local Open Scope Q_scope.




End TransformVocabulary.

(** * Optimisers and objectives to run the driver on *)

Module Examples.

Import Optimiser.

(** ** An optimiser that tries the points of a list, one per iteration *)

Record candidates : Type := {
  todo : list point;
  best_x : point;
  best_f : float;
  trouble : stop_result
}.

Definition candidates_ask (s : candidates) : list point * candidates :=
  ([hd (best_x s) (todo s)], s).

Definition candidates_tell (fs : list float) (s : candidates) : candidates :=
  let x := hd (best_x s) (todo s) in
  let f := hd infinity fs in
  if (f <? best_f s)%float then
    {| todo := tl (todo s); best_x := x; best_f := f;
       trouble := trouble s |}
  else
    {| todo := tl (todo s); best_x := best_x s; best_f := best_f s;
       trouble := trouble s |}.

#[export] Instance candidates_optimiser : AskTell candidates := {
  ask := candidates_ask;
  tell := candidates_tell;
  fbest := best_f;
  xbest := best_x;
  stop := trouble;
  name := fun _ => "Candidate list"%string
}.

(** The optimiser class applied to [x0]: the method of a run. *)
Definition candidates_method (points : list point) (t : stop_result)
  (x0 : point) : result candidates :=
  Ok {| todo := points; best_x := x0; best_f := infinity; trouble := t |}.

(** ** An optimiser that halves its step and keeps the default [stop()] *)

Record halving : Type := {
  position : float;
  halving_best_x : point;
  halving_best_f : float
}.

Definition halving_tell (fs : list float) (s : halving) : halving :=
  let f := hd infinity fs in
  if (f <? halving_best_f s)%float then
    {| position := (position s / 2)%float;
       halving_best_x := [position s]; halving_best_f := f |}
  else
    {| position := (position s / 2)%float;
       halving_best_x := halving_best_x s;
       halving_best_f := halving_best_f s |}.

#[export] Instance halving_optimiser : AskTell halving := {
  ask := fun s => ([[position s]], s);
  tell := halving_tell;
  fbest := halving_best_f;
  xbest := halving_best_x;
  stop := default_stop;
  name := fun _ => "Halving"%string
}.

Definition halving_method (x0 : point) : result halving :=
  Ok {| position := hd 0%float x0; halving_best_x := x0;
        halving_best_f := infinity |}.

(** ** An optimiser whose best score is NaN throughout *)

#[export] Instance lost_optimiser : AskTell nat := {
  ask := fun s => ([[0%float]], s);
  tell := fun _ s => Datatypes.S s;
  fbest := fun _ => nan;
  xbest := fun _ => [0%float];
  stop := default_stop;
  name := fun _ => "Lost"%string
}.

(** ** Objectives *)

(** [sum(x ** 2)] *)
Definition sum_of_squares (x : point) : float :=
  fold_left (fun acc xi => (acc + xi * xi)%float) x 0%float.

(** The first coordinate. *)
Definition first_coordinate (x : point) : float := hd 0%float x.

(** The log-density [-sum(x ** 2)]. *)
Definition log_density (x : point) : float := (- sum_of_squares x)%float.

(** ** Configured drivers *)

Import Optimisation.

(** Maximum iterations 1 and threshold 10, on a point of score 1. *)
Definition build_both_fire : result (t candidates) :=
  self <- __init__ (ErrorMeasure 1 sum_of_squares) [0%float]
            (candidates_method [[1%float]] StopFalse) ;;
  self <- set_max_iterations self (Some 1) ;;
  Ok (set_threshold self (Some 10%float)).

Definition both_fire : t candidates := get build_both_fire.

(** Only maximum iterations 5, with an optimiser that reports trouble. *)
Definition build_ill_conditioned : result (t candidates) :=
  self <- __init__ (ErrorMeasure 1 sum_of_squares) [0%float]
            (candidates_method [[1%float]]
               (StopMessage "Ill-conditioned matrix.")) ;;
  self <- set_max_iterations self (Some 5) ;;
  set_max_unchanged_iterations self None 0%float.

Definition ill_conditioned : t candidates := get build_ill_conditioned.

(** Maximising the log-density over three points: as constructed, and
    with 3 iterations at most. *)
Definition build_maximising_default : result (t candidates) :=
  __init__ (LogPDF 1 log_density) [4%float]
    (candidates_method [[2%float]; [1%float]; [0.5%float]] StopFalse).

Definition maximising_default : t candidates :=
  get build_maximising_default.

Definition build_maximising : result (t candidates) :=
  set_max_iterations maximising_default (Some 3).

Definition maximising : t candidates := get build_maximising.

(** Only maximum iterations [n], with the halving optimiser. *)
Definition build_only_max (n : Z) : result (t halving) :=
  self <- __init__ (ErrorMeasure 1 sum_of_squares) [8%float]
            halving_method ;;
  self <- set_max_iterations self (Some n) ;;
  set_max_unchanged_iterations self None 0%float.

Definition only_max_3 : t halving := get (build_only_max 3).
Definition only_max_0 : t halving := get (build_only_max 0).

(** No criterion at all. *)
Definition build_no_criterion : result (t halving) :=
  self <- __init__ (ErrorMeasure 1 sum_of_squares) [8%float]
            halving_method ;;
  self <- set_max_iterations self None ;;
  set_max_unchanged_iterations self None 0%float.

Definition no_criterion : t halving := get build_no_criterion.

(** A threshold of plus infinity, with the optimiser that reports NaN. *)
Definition build_lost : result (t nat) :=
  self <- __init__ (ErrorMeasure 1 sum_of_squares) [0%float]
            (fun _ => Ok 0%nat) ;;
  self <- set_max_iterations self (Some 2) ;;
  Ok (set_threshold self (Some infinity)).

Definition lost : t nat := get build_lost.

(** Significance threshold 0.5, on points of scores 1, 0.75 and 2. *)
Definition build_small_steps : result (t candidates) :=
  self <- __init__ (ErrorMeasure 1 first_coordinate) [1%float]
            (candidates_method [[1%float]; [0.75%float]; [2%float]]
               StopFalse) ;;
  set_max_unchanged_iterations self (Some 5) 0.5%float.

Definition small_steps : t candidates := get build_small_steps.

(** A state of a run in which the best score is NaN. *)
Definition nan_state : run_state nat :=
  {| the_optimiser := 0%nat; iteration := 1; evaluations := 1;
     unchanged_iterations := 1; fbest := nan; fbest_user := nan;
     next_message := 1; running := true; halt := None; rows := [] |}.

(** ** A box *)

Definition box : Boundaries.t :=
  {| Boundaries.n_parameters := 2;
     Boundaries.check :=
       fun x => forallb (fun c => Qle_bool (fst (fst c)) (snd c)
                                  && negb (Qle_bool (snd (fst c)) (snd c)))
                  (combine (combine [0%Q; (-1)%Q] [2%Q; 1%Q]) x);
     Boundaries.lower := [0%Q; (-1)%Q];
     Boundaries.upper := [2%Q; 1%Q];
     Boundaries.range := [2%Q; 2%Q] |}.

(** ** A population-based algorithm *)

(** Its own field is the flag behind [running()]; the heuristic is
    [4 + 3 * dimension]. *)
#[export] Instance swarm : PopulationBasedOptimiser.Algorithm bool := {
  running := fun self => PopulationBasedOptimiser.ext self;
  _suggested_population_size :=
    fun self => 4 + 3 * Optimiser._dimension
                        (PopulationBasedOptimiser.base self)
}.

Definition build_swarm : result (PopulationBasedOptimiser.t bool) :=
  PopulationBasedOptimiser.__init__ [0%Q; 3%Q; (-6)%Q] Sigma0None None
    false.

(** A swarm as constructed, and the same swarm once its run has started. *)
Definition idle_swarm : PopulationBasedOptimiser.t bool := get build_swarm.

Definition running_swarm : PopulationBasedOptimiser.t bool :=
  {| PopulationBasedOptimiser.base :=
       PopulationBasedOptimiser.base idle_swarm;
     PopulationBasedOptimiser._population_size :=
       PopulationBasedOptimiser._population_size idle_swarm;
     PopulationBasedOptimiser.ext := true |}.

End Examples.

(** * The rest of the module *)

(** ** [Optimisation.set_parallel] and [Optimisation.parallel]

    The two fields behind the parallel setting, kept apart from the other
    settings of the driver: no other method of the class reads or writes
    them, except [run()] when it builds its evaluator. *)

Module Parallel.

(** The argument of [set_parallel]: [True], [False], or an integer. *)
Inductive parallel_arg : Type :=
| ParallelTrue
| ParallelFalse
| ParallelInt (n : Z).

Record settings : Type := {
  _parallel : bool;
  _n_workers : Z
}.

(** The values the constructor assigns before it calls [set_parallel()]. *)
Definition initial : settings := {| _parallel := false; _n_workers := 1 |}.

(** [cpu_count] is [pints.ParallelEvaluator.cpu_count()].  [False >= 1] is
    false, so [False] takes the last branch. *)
Definition set_parallel (cpu_count : Z) (self : settings)
  (parallel : parallel_arg) : settings :=
  match parallel with
  | ParallelTrue => {| _parallel := true; _n_workers := cpu_count |}
  | ParallelInt n =>
      if n >=? 1 then {| _parallel := true; _n_workers := n |}
      else {| _parallel := false; _n_workers := 1 |}
  | ParallelFalse => {| _parallel := false; _n_workers := 1 |}
  end.

(** [parallel()]: the number of workers, or [False] (here [None]). *)
Definition parallel (self : settings) : option Z :=
  if _parallel self then Some (_n_workers self) else None.

End Parallel.

(** ** [fmin]

    [boundaries] and [args] reach the code below only through [method] and
    [f]: the optimiser class is applied to the boundaries by the
    constructor of the driver, and [f(x, *args)] is a function of [x].  The
    call of [set_parallel] is left out with the evaluator. *)

Module Fmin.

Import Optimiser Optimisation.

Section Wrapper.

Context {S : Type} `{AskTell S}.

(** The driver as [fmin] sets it up, up to [opt.run()]. *)
Definition configure (f : point -> float) (x0 : point)
  (threshold : option float) (max_iter max_unchanged : option Z)
  (verbose : bool) (method : point -> result S) : result (t S) :=
  let d := Z.of_nat (List.length x0) in
  opt <- __init__ (ErrorMeasure d f) x0 method ;;
  let opt := set_threshold opt threshold in
  opt <- set_max_iterations opt max_iter ;;
  (* the default [threshold=1e-11] of [set_max_unchanged_iterations] *)
  opt <- set_max_unchanged_iterations opt max_unchanged
           0x1.5fd7fe1796495p-37%float ;;
  Ok (set_log_to_screen opt (if verbose then true else false)).

Definition fmin (f : point -> float) (x0 : point)
  (threshold : option float) (max_iter max_unchanged : option Z)
  (verbose : bool) (method : point -> result S) (fuel : nat)
  : outcome (point * float) :=
  match configure f x0 threshold max_iter max_unchanged verbose method with
  | Raise e => Raises e
  | Ok opt =>
      match run opt fuel with
      | Returns out => Returns (returned out)
      | Raises e => Raises e
      | OutOfFuel => OutOfFuel
      end
  end.

End Wrapper.

End Fmin.

(** ** Vocabulary of the further properties *)

Section MoreVocabulary.

Import Optimiser Optimisation.

Context {S : Type} `{AskTell S}.

(** A row is logged on the pass that starts with iteration count [k]. *)
Definition logged_at (k : Z) : bool := (k <=? 3) || (k mod 20 =? 0).

(** The next logging point when the iteration count is [k]. *)
Definition next_log (k : Z) : Z :=
  if k <=? 3 then k else 20 * ((k + 19) / 20).

(** A maximum that is [None] or not negative. *)
Definition not_negative (o : option Z) : Prop :=
  match o with
  | Some n => 0 <= n
  | None => True
  end.


(** Two drivers that differ in their logging settings at most. *)
Definition same_search (a b : t S) : Prop :=
  _minimising a = _minimising b /\ _function a = _function b
  /\ _optimiser a = _optimiser b
  /\ _max_iterations a = _max_iterations b
  /\ _max_unchanged_iterations a = _max_unchanged_iterations b
  /\ _min_significant_change a = _min_significant_change b
  /\ _threshold a = _threshold b.


(** What the message of the last satisfied criterion says of its state. *)
Definition message_holds (self : t S) (m : halt_message)
  (st : run_state S) : Prop :=
  match m with
  | MaxIterationsReached i =>
      i = iteration st
      /\ exists n, _max_iterations self = Some n /\ n <= i
  | NoSignificantChange u =>
      u = unchanged_iterations st
      /\ exists n, _max_unchanged_iterations self = Some n /\ n <= u
  | ThresholdCrossed th =>
      _threshold self = Some th /\ (fbest st <? th)%float = true
  | OptimiserError e =>
      stop_truthy (stop (the_optimiser st)) = true
      /\ e = stop_str (stop (the_optimiser st))
  end.

(** The error of the setters of maxima. *)
Definition negative_maximum : exn :=
  ValueError "Maximum number of iterations cannot be negative.".

(** The driver [fmin] runs, when it gets to run one. *)
Definition configured (f : point -> float) (threshold : option float)
  (max_iter max_unchanged : option Z) (verbose : bool) (o : S) : t S :=
  {| _minimising := true; _function := f; _optimiser := o;
     _log_to_screen := verbose; _log_filename := None; _log_csv := false;
     _max_iterations := max_iter;
     _max_unchanged_iterations := max_unchanged;
     _min_significant_change := 0x1.5fd7fe1796495p-37%float;
     _threshold := threshold |}.

End MoreVocabulary.

(** * Properties *)

(** ** Comparisons of binary64 floats *)

Section FloatFacts.

Local Open Scope float_scope.

Lemma SFcompare_antisym (x y : spec_float) :
  SFcompare y x = option_map CompOpp (SFcompare x y).
Proof.
  destruct x as [[|]|[|]| |[|] m1 e1], y as [[|]|[|]| |[|] m2 e2];
    simpl; try reflexivity;
    rewrite (Z.compare_antisym e1 e2);
    destruct (e1 ?= e2)%Z; simpl; try reflexivity;
    change (Pos.compare_cont Eq m2 m1) with (m2 ?= m1)%positive;
    change (Pos.compare_cont Eq m1 m2) with (m1 ?= m2)%positive;
    rewrite (Pos.compare_antisym m1 m2); reflexivity.
Qed.

Lemma SFcompare_refl (x : spec_float) :
  x <> S754_nan -> SFcompare x x = Some Eq.
Proof.
  destruct x as [[|]|[|]| |[|] m e]; simpl; intros Hx;
    try reflexivity; try congruence;
    rewrite Z.compare_refl;
    change (Pos.compare_cont Eq m m) with (m ?= m)%positive;
    rewrite Pos.compare_refl; reflexivity.
Qed.

(** A NaN is below nothing. *)
Lemma ltb_nan_l (f t : float) : is_nan f = true -> (f <? t) = false.
Proof.
  unfold is_nan. rewrite FloatAxioms.eqb_spec, ltb_spec.
  unfold SFeqb, SFltb. intros Hnan.
  destruct (Prim2SF f) eqn:E; try reflexivity;
    rewrite SFcompare_refl in Hnan by congruence; discriminate.
Qed.

(** [y <= x] excludes [x < y]. *)
Lemma leb_not_ltb (x y : float) : (y <=? x) = true -> (x <? y) = false.
Proof.
  rewrite leb_spec, ltb_spec. unfold SFleb, SFltb.
  rewrite (SFcompare_antisym (Prim2SF x) (Prim2SF y)).
  destruct (SFcompare (Prim2SF x) (Prim2SF y)) as [[| |]|];
    simpl; congruence.
Qed.

(** Nothing is above plus infinity. *)
Lemma ltb_infinity_l (t : float) : (infinity <? t) = false.
Proof.
  rewrite ltb_spec. unfold SFltb.
  change (Prim2SF infinity) with (S754_infinity false).
  destruct (Prim2SF t) as [[|]|[|]| |[|] m e]; reflexivity.
Qed.

End FloatFacts.

(** ** The stopping criteria *)

Section StoppingCriteria.

Import Optimiser Optimisation.

Context {S : Type} `{AskTell S}.

Variable self : t S.

(** Halting leaves the conditions of the later checks as they were. *)
Lemma halt_with_conditions (m : halt_message) (st : run_state S) :
  max_iterations_reached self (halt_with m st)
  = max_iterations_reached self st
  /\ max_unchanged_reached self (halt_with m st)
     = max_unchanged_reached self st
  /\ threshold_crossed self (halt_with m st) = threshold_crossed self st
  /\ optimiser_stopped (halt_with m st) = optimiser_stopped st.
Proof. repeat split; reflexivity. Qed.

Lemma check_threshold_unfold (st : run_state S) :
  check_threshold self st
  = if threshold_crossed self st
    then match message_of_threshold self st with
         | Some m => halt_with m st
         | None => st
         end
    else st.
Proof.
  unfold check_threshold, threshold_crossed, message_of_threshold.
  destruct (_threshold self) as [th|]; reflexivity.
Qed.

Lemma threshold_crossed_message (st : run_state S) :
  threshold_crossed self st = true ->
  exists th, _threshold self = Some th
             /\ message_of_threshold self st = Some (ThresholdCrossed th).
Proof.
  unfold threshold_crossed, message_of_threshold.
  destruct (_threshold self) as [th|]; [|discriminate].
  intros _. exists th. split; reflexivity.
Qed.

(** The four checks, by cases on the four conditions. *)
Ltac by_criteria st :=
  unfold check_stopping_criteria, check_optimiser, check_max_unchanged,
    check_max_iterations;
  rewrite !check_threshold_unfold;
  destruct (max_iterations_reached self st) eqn:Emax;
  repeat match goal with
    | |- context [max_unchanged_reached self (halt_with ?m ?s)] =>
        change (max_unchanged_reached self (halt_with m s))
          with (max_unchanged_reached self s)
    end;
  destruct (max_unchanged_reached self st) eqn:Eunchanged;
  repeat match goal with
    | |- context [threshold_crossed self (halt_with ?m ?s)] =>
        change (threshold_crossed self (halt_with m s))
          with (threshold_crossed self s)
    end;
  destruct (threshold_crossed self st) eqn:Ethreshold;
  try (destruct (threshold_crossed_message st Ethreshold)
         as [th [Hth Hmsg]];
       repeat match goal with
         | |- context [message_of_threshold self (halt_with ?m ?s)] =>
             change (message_of_threshold self (halt_with m s))
               with (message_of_threshold self s)
         end;
       rewrite ?Hmsg);
  repeat match goal with
    | |- context [stop (the_optimiser (halt_with ?m ?s))] =>
        change (the_optimiser (halt_with m s)) with (the_optimiser s)
    end;
  fold (optimiser_stopped st);
  destruct (optimiser_stopped st) eqn:Estopped.

Lemma check_stopping_criteria_progress (st : run_state S) :
  same_progress (check_stopping_criteria self st) st.
Proof.
  unfold same_progress.
  by_criteria st; repeat split; reflexivity.
Qed.

Lemma check_stopping_criteria_running (st : run_state S) :
  running (check_stopping_criteria self st)
  = running st && negb (some_criterion self st).
Proof.
  unfold some_criterion.
  by_criteria st; rewrite ?Emax, ?Eunchanged, ?Ethreshold, ?Estopped;
    simpl; destruct (running st); reflexivity.
Qed.

Lemma check_stopping_criteria_halt (st : run_state S) :
  halt (check_stopping_criteria self st)
  = match last_satisfied self st with
    | Some m => Some m
    | None => halt st
    end.
Proof.
  unfold last_satisfied.
  by_criteria st; rewrite ?Emax, ?Eunchanged, ?Ethreshold, ?Estopped;
    rewrite ?Hmsg; reflexivity.
Qed.

End StoppingCriteria.

(** ** The loop of [run()] *)

Section Loop.

Import Optimiser Optimisation.

Context {S : Type} `{AskTell S}.

Variable self : t S.

Lemma update_best_fields (fnew : float) (st : run_state S) :
  iteration (update_best self fnew st) = iteration st
  /\ running (update_best self fnew st) = running st
  /\ halt (update_best self fnew st) = halt st
  /\ the_optimiser (update_best self fnew st) = the_optimiser st.
Proof.
  unfold update_best. destruct (fnew <? fbest st)%float;
    repeat split; reflexivity.
Qed.

Lemma show_progress_fields (st : run_state S) :
  iteration (show_progress self st) = iteration st
  /\ running (show_progress self st) = running st
  /\ halt (show_progress self st) = halt st
  /\ the_optimiser (show_progress self st) = the_optimiser st
  /\ fbest (show_progress self st) = fbest st
  /\ fbest_user (show_progress self st) = fbest_user st
  /\ unchanged_iterations (show_progress self st) = unchanged_iterations st.
Proof.
  unfold show_progress.
  destruct (logging self && (iteration st >=? next_message st));
    repeat split; reflexivity.
Qed.

Lemma iterate_iteration (st : run_state S) :
  iteration (iterate self st) = iteration st + 1.
Proof.
  unfold iterate. destruct (ask_evaluate_tell self st) as [fs o].
  cbn [count_iteration iteration].
  rewrite (proj1 (show_progress_fields _)).
  cbn [count_evaluations iteration].
  rewrite (proj1 (update_best_fields _ _)). reflexivity.
Qed.

Lemma iterate_running (st : run_state S) :
  running (iterate self st) = running st.
Proof.
  unfold iterate. destruct (ask_evaluate_tell self st) as [fs o].
  cbn [count_iteration running].
  rewrite (proj1 (proj2 (show_progress_fields _))).
  cbn [count_evaluations running].
  rewrite (proj1 (proj2 (update_best_fields _ _))). reflexivity.
Qed.

Lemma loop_body_iteration (st : run_state S) :
  iteration (loop_body self st) = iteration st + 1.
Proof.
  unfold loop_body.
  destruct (check_stopping_criteria_progress self (iterate self st))
    as (_ & Hit & _).
  rewrite Hit. apply iterate_iteration.
Qed.

Lemma loop_body_running (st : run_state S) :
  running (loop_body self st)
  = running st && negb (some_criterion self (iterate self st)).
Proof.
  unfold loop_body.
  rewrite check_stopping_criteria_running, iterate_running. reflexivity.
Qed.

Lemma after_succ_r (k : nat) (st : run_state S) :
  after self (Datatypes.S k) st = after self k (loop_body self st).
Proof. reflexivity. Qed.

Lemma after_succ_l (k : nat) :
  forall st : run_state S,
    after self (Datatypes.S k) st = loop_body self (after self k st).
Proof.
  induction k as [|k IH]; intros st; [reflexivity|].
  rewrite after_succ_r, IH. reflexivity.
Qed.

Lemma after_iteration (k : nat) :
  forall st : run_state S,
    iteration (after self k st) = iteration st + Z.of_nat k.
Proof.
  induction k as [|k IH]; intros st.
  - cbn. lia.
  - rewrite after_succ_r, IH, loop_body_iteration. lia.
Qed.

(** The loop ends in the first state, counted in passes, that is not
    running. *)
Lemma while_running_after (k : nat) :
  forall (st : run_state S) (fuel : nat),
    (forall j, (j < k)%nat -> running (after self j st) = true) ->
    running (after self k st) = false ->
    (k < fuel)%nat ->
    while_running self fuel st = Some (after self k st).
Proof.
  induction k as [|k IH]; intros st fuel Hbefore Hend Hfuel.
  - destruct fuel as [|fuel]; [lia|].
    cbn in Hend. cbn [while_running]. rewrite Hend. reflexivity.
  - destruct fuel as [|fuel]; [lia|].
    cbn [while_running].
    assert (H0 : running st = true) by (apply (Hbefore 0%nat); lia).
    rewrite H0, after_succ_r. apply IH.
    + intros j Hj. rewrite <- after_succ_r. apply Hbefore. lia.
    + rewrite <- after_succ_r. exact Hend.
    + lia.
Qed.

(** Conversely, a loop that ends has made some number of passes, running
    before each of them. *)
Lemma while_running_inv (fuel : nat) :
  forall (st st' : run_state S),
    while_running self fuel st = Some st' ->
    exists k, (k < fuel)%nat /\ st' = after self k st
              /\ running st' = false
              /\ forall j, (j < k)%nat -> running (after self j st) = true.
Proof.
  induction fuel as [|fuel IH]; intros st st' Hw; [discriminate|].
  cbn [while_running] in Hw.
  destruct (running st) eqn:Hrun.
  - destruct (IH _ _ Hw) as (k & Hk & Heq & Hstop & Hbefore).
    exists (Datatypes.S k). rewrite after_succ_r.
    repeat split; try assumption; try lia.
    intros [|j] Hj; [exact Hrun|].
    rewrite after_succ_r. apply Hbefore. lia.
  - injection Hw as <-. exists 0%nat.
    repeat split; try assumption; try lia.
Qed.

End Loop.

(** ** The driver *)

Section Driver.

Import Optimiser Optimisation.

Context {S : Type} `{AskTell S}.

Variable self : t S.

Lemma iterate_halt (st : run_state S) :
  halt (iterate self st) = halt st.
Proof.
  unfold iterate. destruct (ask_evaluate_tell self st) as [fs o].
  cbn [count_iteration halt].
  rewrite (proj1 (proj2 (proj2 (show_progress_fields self _)))).
  cbn [count_evaluations halt].
  rewrite (proj1 (proj2 (proj2 (update_best_fields self _ _)))).
  reflexivity.
Qed.

Lemma some_criterion_last_satisfied (st : run_state S) :
  some_criterion self st = true ->
  exists m, last_satisfied self st = Some m.
Proof.
  unfold some_criterion, last_satisfied. intros Hsome.
  destruct (optimiser_stopped st); [eauto|].
  destruct (threshold_crossed self st) eqn:Eth.
  - destruct (threshold_crossed_message self st Eth) as (th & _ & ->).
    eauto.
  - destruct (max_unchanged_reached self st); [eauto|].
    destruct (max_iterations_reached self st); [eauto|discriminate].
Qed.

(** A run that returns has made at least one pass; the last pass is the
    first one at whose end a criterion is satisfied. *)
Lemma run_loop_last_pass (fuel : nat) (st : run_state S) :
  run_loop self fuel = Returns st ->
  exists k,
    (Datatypes.S k < fuel)%nat
    /\ st = loop_body self (after self k (initial_state self))
    /\ some_criterion self (iterate self (after self k (initial_state self)))
       = true
    /\ forall j, (j <= k)%nat ->
                 running (after self j (initial_state self)) = true.
Proof.
  unfold run_loop. destruct (negb (has_stopping_criterion self));
    [discriminate|].
  destruct (while_running self fuel (initial_state self)) as [st'|] eqn:Hw;
    [|discriminate].
  intros Heq. injection Heq as ->.
  destruct (while_running_inv self fuel _ _ Hw)
    as (k & Hk & Hst & Hstop & Hbefore).
  destruct k as [|k].
  - cbn in Hst. subst st. discriminate.
  - exists k. rewrite after_succ_l in Hst.
    assert (Hj : forall j, (j <= k)%nat ->
                 running (after self j (initial_state self)) = true)
      by (intros j Hj; apply Hbefore; lia).
    repeat split; try assumption.
    rewrite Hst, loop_body_running, (Hj k) in Hstop by lia.
    destruct (some_criterion self _); [reflexivity|discriminate].
Qed.

(** C1, as amended.  On every pass the four criteria are checked in the
    order max-iterations, max-unchanged-iterations, threshold, optimiser
    [stop()]; the run stops as soon as one of them is satisfied; and when
    several are satisfied on the same pass the halt message kept, and
    printed for the caller when logging to screen, is the one of the last
    satisfied criterion in that order. *)
Theorem stopping_criteria_keep_last_message :
  (forall st : run_state S,
      loop_body self st
      = check_optimiser
          (check_threshold self
             (check_max_unchanged self
                (check_max_iterations self (iterate self st))))
      /\ running (loop_body self st)
         = running st && negb (some_criterion self (iterate self st))
      /\ halt (loop_body self st)
         = match last_satisfied self (iterate self st) with
           | Some m => Some m
           | None => halt st
           end)
  /\ (forall (fuel : nat) (out : run_output),
         run self fuel = Returns out ->
         exists k m,
           let last := iterate self (after self k (initial_state self)) in
           some_criterion self last = true
           /\ last_satisfied self last = Some m
           /\ printed out = if _log_to_screen self then Some m else None).
Proof.
  split.
  - intros st. split; [reflexivity|]. split.
    + apply loop_body_running.
    + unfold loop_body.
      rewrite check_stopping_criteria_halt, iterate_halt. reflexivity.
  - intros fuel out Hrun. unfold run in Hrun.
    destruct (run_loop self fuel) as [st| |] eqn:Hloop; try discriminate.
    injection Hrun as <-.
    destruct (run_loop_last_pass fuel st Hloop) as (k & _ & Hst & Hsome & _).
    destruct (some_criterion_last_satisfied _ Hsome) as [m Hm].
    exists k, m. cbn zeta. repeat split; try assumption.
    unfold finish, logging. cbn [printed].
    rewrite Hst. unfold loop_body.
    rewrite check_stopping_criteria_halt, Hm.
    destruct (_log_to_screen self); cbn [orb andb];
      [reflexivity | rewrite andb_false_r; reflexivity].
Qed.

(** C2.  On every pass, with [fnew] the optimiser's [fbest()] after
    [tell()]: if [fnew] is strictly below the best so far and the magnitude
    of the improvement is at least the significance threshold, the counter
    of unchanged iterations is reset to 0; if it is strictly below but by
    less than the threshold, the counter is incremented; if it is not
    strictly below, the counter is incremented. *)
Theorem unchanged_counter_update (st : run_state S) :
  let fnew := Optimiser.fbest (snd (ask_evaluate_tell self st)) in
  let change := abs (fnew - fbest st) in
  ((fnew <? fbest st)%float = true ->
   (_min_significant_change self <=? change)%float = true ->
   unchanged_iterations (loop_body self st) = 0)
  /\ ((fnew <? fbest st)%float = true ->
      (change <? _min_significant_change self)%float = true ->
      unchanged_iterations (loop_body self st)
      = unchanged_iterations st + 1)
  /\ ((fnew <? fbest st)%float = false ->
      unchanged_iterations (loop_body self st)
      = unchanged_iterations st + 1).
Proof.
  intros fnew change.
  assert (Hbody : unchanged_iterations (loop_body self st)
                  = unchanged_iterations (update_best self fnew st)).
  { unfold loop_body.
    destruct (check_stopping_criteria_progress self (iterate self st))
      as (_ & _ & _ & -> & _).
    unfold iterate, fnew.
    destruct (ask_evaluate_tell self st) as [fs o].
    cbn [count_iteration unchanged_iterations snd].
    destruct (show_progress_fields self
                (count_evaluations fs
                   (update_best self (Optimiser.fbest o)
                      {| the_optimiser := o; iteration := iteration st;
                         evaluations := evaluations st;
                         unchanged_iterations := unchanged_iterations st;
                         fbest := fbest st; fbest_user := fbest_user st;
                         next_message := next_message st;
                         running := running st; halt := halt st;
                         rows := rows st |})))
      as (_ & _ & _ & _ & _ & _ & ->).
    cbn [count_evaluations unchanged_iterations].
    unfold update_best. cbn [fbest unchanged_iterations].
    destruct (Optimiser.fbest o <? fbest st)%float; reflexivity. }
  rewrite Hbody. unfold update_best. fold change.
  repeat split.
  - intros -> Hge. cbn [unchanged_iterations].
    rewrite (leb_not_ltb _ _ Hge). reflexivity.
  - intros -> Hlt. cbn [unchanged_iterations]. rewrite Hlt. reflexivity.
  - intros ->. reflexivity.
Qed.

(** The reported value follows the internal one on every pass. *)
Lemma loop_body_fbest_user (st : run_state S) :
  fbest_user st = user_value self (fbest st) ->
  fbest_user (loop_body self st)
  = user_value self (fbest (loop_body self st)).
Proof.
  intros Hinv. unfold loop_body.
  destruct (check_stopping_criteria_progress self (iterate self st))
    as (_ & _ & _ & _ & -> & -> & _).
  unfold iterate. destruct (ask_evaluate_tell self st) as [fs o].
  cbn [count_iteration fbest fbest_user].
  match goal with
  | |- context [show_progress self ?s] =>
      destruct (show_progress_fields self s)
        as (_ & _ & _ & _ & -> & -> & _)
  end.
  cbn [count_evaluations fbest fbest_user].
  unfold update_best. cbn [fbest fbest_user].
  destruct (Optimiser.fbest o <? fbest st)%float;
    cbn [fbest fbest_user]; [reflexivity|exact Hinv].
Qed.

Lemma after_fbest_user (k : nat) :
  forall st : run_state S,
    fbest_user st = user_value self (fbest st) ->
    fbest_user (after self k st) = user_value self (fbest (after self k st)).
Proof.
  induction k as [|k IH]; intros st Hinv; [exact Hinv|].
  rewrite after_succ_r. apply IH, loop_body_fbest_user, Hinv.
Qed.

(** With a maximum number of iterations the loop ends. *)
Lemma while_running_halts (n : Z) :
  _max_iterations self = Some n ->
  forall (k : nat) (st : run_state S),
    n - iteration st <= Z.of_nat k -> (1 <= k)%nat ->
    exists st', while_running self (Datatypes.S k) st = Some st'.
Proof.
  intros Hmax. induction k as [|k IH]; intros st Hk Hpos; [lia|].
  change (while_running self (Datatypes.S (Datatypes.S k)) st)
    with (if running st
          then while_running self (Datatypes.S k) (loop_body self st)
          else Some st).
  destruct (running st) eqn:Hrun; [|eauto].
  destruct (running (loop_body self st)) eqn:Hnext.
  - rewrite loop_body_running, Hrun in Hnext. cbn [andb] in Hnext.
    apply negb_true_iff in Hnext.
    unfold some_criterion in Hnext.
    repeat (apply orb_false_iff in Hnext; destruct Hnext as [Hnext ?]).
    unfold max_iterations_reached in Hnext. rewrite Hmax in Hnext.
    rewrite iterate_iteration, Z.geb_leb in Hnext.
    apply Z.leb_gt in Hnext.
    apply IH; [rewrite loop_body_iteration|]; lia.
  - cbn [while_running]. rewrite Hnext. eauto.
Qed.


Lemma run_raises (fuel : nat) (e : exn) :
  run self fuel = Raises e
  <-> has_stopping_criterion self = false /\ e = no_criterion_error.
Proof.
  unfold run, run_loop.
  destruct (has_stopping_criterion self); cbn [negb].
  - destruct (while_running self fuel (initial_state self)); split;
      solve [discriminate | intros [Hf _]; discriminate Hf].
  - split.
    + intros Heq. injection Heq as <-. split; reflexivity.
    + intros [_ ->]. reflexivity.
Qed.

Lemma has_stopping_criterion_false :
  has_stopping_criterion self = false
  <-> _max_iterations self = None
      /\ _max_unchanged_iterations self = None
      /\ _threshold self = None.
Proof.
  unfold has_stopping_criterion.
  destruct (_max_iterations self) as [n|];
    destruct (_max_unchanged_iterations self) as [u|];
    destruct (_threshold self) as [th|]; cbn [is_not_None orb];
    split; try discriminate; try (intros (Hn & Hu & Ht); congruence).
  intros _. repeat split.
Qed.


(** A NaN reported by the optimiser never becomes the best score. *)
Lemma update_best_nan (fnew : float) (st : run_state S) :
  is_nan fnew = true ->
  fbest (update_best self fnew st) = fbest st
  /\ unchanged_iterations (update_best self fnew st)
     = unchanged_iterations st + 1.
Proof.
  intros Hnan. unfold update_best.
  rewrite (ltb_nan_l fnew (fbest st) Hnan). split; reflexivity.
Qed.

Lemma loop_body_fbest (st : run_state S) :
  fbest (loop_body self st)
  = fbest (update_best self
             (Optimiser.fbest (snd (ask_evaluate_tell self st))) st).
Proof.
  unfold loop_body.
  destruct (check_stopping_criteria_progress self (iterate self st))
    as (_ & _ & _ & _ & -> & _).
  unfold iterate. destruct (ask_evaluate_tell self st) as [fs o].
  cbn [count_iteration fbest snd].
  match goal with
  | |- context [show_progress self ?s] =>
      destruct (show_progress_fields self s) as (_ & _ & _ & _ & -> & _)
  end.
  cbn [count_evaluations fbest].
  unfold update_best. cbn [fbest].
  destruct (Optimiser.fbest o <? fbest st)%float; reflexivity.
Qed.

Lemma after_fbest_nan (k : nat) :
  (forall o : S, is_nan (Optimiser.fbest o) = true) ->
  forall st : run_state S, fbest (after self k st) = fbest st.
Proof.
  intros Hnan. induction k as [|k IH]; intros st; [reflexivity|].
  rewrite after_succ_r, IH, loop_body_fbest.
  apply update_best_nan, Hnan.
Qed.

(** C9.  A best score that is NaN never satisfies the threshold check,
    whatever the threshold, and the check leaves the run as it is; a NaN
    reported by the optimiser goes through the comparison with the best
    score, which stays as it was while the pass counts as unchanged; the
    only error [run()] raises is the one for missing stopping criteria; and
    a run whose optimiser reports NaN throughout is never halted with the
    threshold message. *)
Theorem nan_never_crosses_threshold :
  (forall st : run_state S,
      is_nan (fbest st) = true ->
      threshold_crossed self st = false /\ check_threshold self st = st)
  /\ (forall (fnew : float) (st : run_state S),
         is_nan fnew = true ->
         fbest (update_best self fnew st) = fbest st
         /\ unchanged_iterations (update_best self fnew st)
            = unchanged_iterations st + 1)
  /\ (forall (fuel : nat) (e : exn),
         run self fuel = Raises e -> has_stopping_criterion self = false)
  /\ ((forall o : S, is_nan (Optimiser.fbest o) = true) ->
      forall (fuel : nat) (st : run_state S) (th : float),
        run_loop self fuel = Returns st ->
        halt st <> Some (ThresholdCrossed th)).
Proof.
  split; [|split; [|split]].
  - intros st Hnan.
    assert (Hth : threshold_crossed self st = false).
    { unfold threshold_crossed. destruct (_threshold self) as [th|];
        [apply ltb_nan_l, Hnan|reflexivity]. }
    split; [exact Hth|]. rewrite check_threshold_unfold, Hth. reflexivity.
  - apply update_best_nan.
  - intros fuel e He. apply run_raises in He. apply He.
  - intros Hnan fuel st th Hloop.
    destruct (run_loop_last_pass fuel st Hloop) as (k & _ & Hst & Hsome & _).
    assert (Hinf : fbest (iterate self (after self k (initial_state self)))
                   = infinity).
    { destruct (check_stopping_criteria_progress self
                  (iterate self (after self k (initial_state self))))
        as (_ & _ & _ & _ & <- & _).
      fold (loop_body self (after self k (initial_state self))).
      rewrite <- after_succ_l. rewrite after_fbest_nan by exact Hnan.
      reflexivity. }
    assert (Hth : threshold_crossed self
                    (iterate self (after self k (initial_state self)))
                  = false).
    { unfold threshold_crossed. rewrite Hinf.
      destruct (_threshold self); [apply ltb_infinity_l|reflexivity]. }
    rewrite Hst. unfold loop_body.
    rewrite check_stopping_criteria_halt.
    unfold some_criterion in Hsome. unfold last_satisfied.
    rewrite Hth in *.
    destruct (optimiser_stopped _); [discriminate|].
    destruct (max_unchanged_reached self _); [discriminate|].
    destruct (max_iterations_reached self _); discriminate.
Qed.

(** When the maximum number of iterations is the only criterion that can
    be satisfied, the run is running after [j] passes exactly when [j] is
    zero or below the maximum. *)
Lemma running_after_only_max_iterations (n : Z) :
  _max_iterations self = Some n ->
  _max_unchanged_iterations self = None ->
  _threshold self = None ->
  (forall o : S, stop_truthy (stop o) = false) ->
  forall j : nat,
    running (after self j (initial_state self))
    = match j with
      | O => true
      | Datatypes.S _ => Z.of_nat j <? n
      end.
Proof.
  intros Hmax Hunchanged Hthreshold Hstop.
  induction j as [|j IH]; [reflexivity|].
  rewrite after_succ_l, loop_body_running, IH.
  unfold some_criterion, max_iterations_reached, max_unchanged_reached,
    threshold_crossed, optimiser_stopped.
  rewrite Hmax, Hunchanged, Hthreshold, Hstop, !orb_false_r.
  rewrite iterate_iteration, after_iteration.
  cbn [initial_state iteration].
  destruct j as [|j].
  - cbn [andb]. destruct (Z.ltb_spec (Z.of_nat 1) n);
      destruct (Z.geb_spec (0 + Z.of_nat 0 + 1) n); cbn [negb];
      try reflexivity; lia.
  - destruct (Z.ltb_spec (Z.of_nat (Datatypes.S j)) n);
      destruct (Z.ltb_spec (Z.of_nat (Datatypes.S (Datatypes.S j))) n);
      destruct (Z.geb_spec (0 + Z.of_nat (Datatypes.S j) + 1) n);
      cbn [negb andb]; try reflexivity; lia.
Qed.

(** C10, as amended.  Every run that returns has made at least one pass
    through ask, evaluate and tell, and with a maximum [n] of iterations at
    most [max(n, 1)] passes; with a maximum of 0 it makes exactly one pass
    and halts; and when the maximum [n] is the only criterion enabled and
    the optimiser's [stop()] never reports, as in the base class, it makes
    exactly [max(n, 1)] passes. *)
Theorem run_iteration_count :
  (forall (fuel : nat) (st : run_state S),
      run_loop self fuel = Returns st ->
      1 <= iteration st
      /\ forall n, _max_iterations self = Some n ->
                   iteration st <= Z.max n 1)
  /\ (_max_iterations self = Some 0 ->
      forall fuel : nat,
        (2 <= fuel)%nat ->
        run_loop self fuel = Returns (loop_body self (initial_state self))
        /\ iteration (loop_body self (initial_state self)) = 1)
  /\ (forall n : Z,
         _max_iterations self = Some n ->
         _max_unchanged_iterations self = None ->
         _threshold self = None ->
         (forall o : S, stop_truthy (stop o) = false) ->
         forall fuel : nat,
           (Z.to_nat (Z.max n 1) < fuel)%nat ->
           let final := after self (Z.to_nat (Z.max n 1))
                          (initial_state self) in
           run_loop self fuel = Returns final
           /\ iteration final = Z.max n 1
           /\ halt final = Some (MaxIterationsReached (Z.max n 1))).
Proof.
  split; [|split].
  - intros fuel st Hloop.
    destruct (run_loop_last_pass fuel st Hloop)
      as (k & _ & Hst & _ & Hbefore).
    assert (Hit : iteration st = Z.of_nat k + 1).
    { rewrite Hst, loop_body_iteration, after_iteration. reflexivity. }
    split; [lia|]. intros n Hmax.
    destruct k as [|k]; [lia|].
    assert (Hrun := Hbefore (Datatypes.S k) (le_n _)).
    rewrite after_succ_l, loop_body_running in Hrun.
    apply andb_true_iff in Hrun. destruct Hrun as [_ Hnone].
    apply negb_true_iff in Hnone. unfold some_criterion in Hnone.
    repeat (apply orb_false_iff in Hnone; destruct Hnone as [Hnone ?]).
    unfold max_iterations_reached in Hnone. rewrite Hmax in Hnone.
    rewrite iterate_iteration, after_iteration, Z.geb_leb in Hnone.
    apply Z.leb_gt in Hnone. cbn [initial_state iteration] in Hnone. lia.
  - intros Hmax fuel Hfuel.
    split; [|rewrite loop_body_iteration; reflexivity].
    unfold run_loop, has_stopping_criterion.
    rewrite Hmax. cbn [is_not_None orb negb].
    rewrite (while_running_after self 1); [reflexivity| | |lia].
    + intros j Hj. replace j with 0%nat by lia. reflexivity.
    + cbn [after]. rewrite loop_body_running.
      unfold some_criterion, max_iterations_reached.
      rewrite Hmax, iterate_iteration. reflexivity.
  - intros n Hmax Hunchanged Hthreshold Hstop fuel Hfuel final.
    assert (Hrunning := running_after_only_max_iterations n Hmax Hunchanged
                          Hthreshold Hstop).
    assert (Hpos : (1 <= Z.to_nat (Z.max n 1))%nat) by lia.
    assert (Hit : iteration final = Z.max n 1).
    { unfold final. rewrite after_iteration.
      cbn [initial_state iteration]. lia. }
    split; [|split; [exact Hit|]].
    + unfold run_loop, has_stopping_criterion.
      rewrite Hmax. cbn [is_not_None orb negb].
      rewrite (while_running_after self (Z.to_nat (Z.max n 1)));
        [reflexivity| | |exact Hfuel].
      * intros j Hj. rewrite Hrunning. destruct j as [|j]; [reflexivity|].
        apply Z.ltb_lt. lia.
      * rewrite Hrunning.
        destruct (Z.to_nat (Z.max n 1)) as [|m] eqn:Em; [lia|].
        apply Z.ltb_ge. lia.
    + unfold final in *.
      destruct (Z.to_nat (Z.max n 1)) as [|m] eqn:Em; [lia|].
      rewrite after_succ_l in *. unfold loop_body in *.
      rewrite check_stopping_criteria_halt.
      destruct (check_stopping_criteria_progress self
                  (iterate self (after self m (initial_state self))))
        as (_ & Hsame & _).
      rewrite Hsame in Hit.
      unfold last_satisfied, optimiser_stopped, threshold_crossed,
        max_unchanged_reached, max_iterations_reached,
        message_of_max_iterations.
      rewrite Hstop, Hthreshold, Hunchanged, Hmax, Hit.
      destruct (Z.geb_spec (Z.max n 1) n); [reflexivity|lia].
Qed.

End Driver.

(** ** Population size *)

Section PopulationSize.

Import PopulationBasedOptimiser.

Context {E : Type} `{Algorithm E}.

Lemma round_up_bounds (n m : Z) :
  1 < m ->
  let r := m * (((n - 1) / m) + 1) in
  n <= r < n + m /\ (- n) / m = - (((n - 1) / m) + 1).
Proof.
  intros Hm r.
  assert (Hdiv := Z.div_mod (n - 1) m ltac:(lia)).
  assert (Hmod := Z.mod_pos_bound (n - 1) m ltac:(lia)).
  split; [unfold r; lia|].
  symmetry. apply (Z.div_unique_pos _ _ _ (m - 1 - (n - 1) mod m)); lia.
Qed.

(** C6.  With the heuristic suggestion [n] and a multiple [m > 1],
    [suggested_population_size(m)] returns [ceil(n / m) * m]: a multiple of
    [m], at least [n] and below [n + m], and [n] itself when [n] is already
    a multiple of [m]. *)
Theorem suggested_population_size_rounds_up (self : t E) (m : Z) :
  1 < m ->
  let n := _suggested_population_size self in
  let r := suggested_population_size self (Some m) in
  r = ceil_div n m * m
  /\ (m | r)
  /\ n <= r < n + m
  /\ ((m | n) -> r = n).
Proof.
  intros Hm n r.
  assert (Hr : r = m * (((n - 1) / m) + 1)).
  { unfold r, suggested_population_size. fold n.
    destruct (Z.gtb_spec m 1); [reflexivity|lia]. }
  destruct (round_up_bounds n m Hm) as [Hbounds Hceil].
  rewrite <- Hr in Hbounds.
  split; [|split; [|split]].
  - unfold ceil_div. rewrite Hceil, Hr. lia.
  - exists ((n - 1) / m + 1). rewrite Hr. lia.
  - exact Hbounds.
  - intros [c Hc].
    assert (Hq : r = m * ((n - 1) / m + 1)) by exact Hr.
    set (q := (n - 1) / m + 1) in *.
    assert (q = c) by nia. subst q. lia.
Qed.

(** C7, what the code does.  [set_population_size] raises while
    [running()] is true; otherwise it raises for an integer below 1, stores
    a positive integer so that [population_size()] returns it, and for
    [None] stores [None]: [population_size()] then returns [None], not the
    value of the heuristic. *)
Theorem set_population_size_cases (self : t E) :
  (running self = true ->
   forall n : option Z,
     set_population_size self n
     = Raise (Exception "Cannot change population size during run."))
  /\ (running self = false ->
      (forall n : Z,
          n < 1 ->
          set_population_size self (Some n)
          = Raise (ValueError "Population size must be at least 1."))
      /\ (forall n : Z,
             1 <= n ->
             exists self',
               set_population_size self (Some n) = Ok self'
               /\ population_size self' = Some n)
      /\ (exists self',
             set_population_size self None = Ok self'
             /\ population_size self' = None)).
Proof.
  split.
  - intros Hrun n. unfold set_population_size. rewrite Hrun. reflexivity.
  - intros Hrun. unfold set_population_size. rewrite Hrun.
    split; [|split].
    + intros n Hn. destruct (Z.ltb_spec n 1); [reflexivity|lia].
    + intros n Hn. destruct (Z.ltb_spec n 1); [lia|].
      eexists. split; reflexivity.
    + eexists. split; reflexivity.
Qed.

End PopulationSize.

(** ** The derived initial spread *)

Section Sigma0.

Import Optimiser.

Local Open Scope Q_scope.





End Sigma0.

(** ** The triangle-wave transform *)

Section TriangleWave.

Import TriangleWaveTransform.

Local Open Scope Q_scope.












End TriangleWave.

(** ** The properties on the examples *)

Section OnExamples.

Import Optimiser Optimisation Examples.

(** The examples are what the constructor and the setters build. *)
Lemma examples_built :
  build_both_fire = Ok both_fire
  /\ build_ill_conditioned = Ok ill_conditioned
  /\ build_maximising_default = Ok maximising_default
  /\ build_maximising = Ok maximising
  /\ build_only_max 3 = Ok only_max_3
  /\ build_only_max 0 = Ok only_max_0
  /\ build_no_criterion = Ok no_criterion
  /\ build_lost = Ok lost
  /\ build_small_steps = Ok small_steps
  /\ build_swarm = Ok idle_swarm.
Proof. repeat split. Qed.

(** The first satisfied criterion is not the one whose message is kept:
    with maximum iterations 1 and threshold 10, the first pass satisfies
    both, and the message printed is the one of the threshold. *)
Lemma first_message_not_kept :
  let last := iterate both_fire (initial_state both_fire) in
  max_iterations_reached both_fire last = true
  /\ threshold_crossed both_fire last = true
  /\ first_satisfied both_fire last = Some (MaxIterationsReached 1)
  /\ (exists out, run both_fire 3 = Returns out
                  /\ printed out = Some (ThresholdCrossed 10%float))
  /\ ~ keeps_first_message both_fire.
Proof.
  cbn zeta. repeat (split; [vm_compute; reflexivity|]).
  split; [eexists; split; vm_compute; reflexivity|].
  intros Hkeeps.
  assert (Hsome : some_criterion both_fire
                    (iterate both_fire (initial_state both_fire)) = true)
    by (vm_compute; reflexivity).
  specialize (Hkeeps (initial_state both_fire) Hsome).
  vm_compute in Hkeeps. discriminate Hkeeps.
Qed.

Lemma stopping_criteria_keep_last_message_witness :
  exists out,
    run both_fire 3 = Returns out
    /\ exists k m,
         let last :=
           iterate both_fire (after both_fire k (initial_state both_fire)) in
         some_criterion both_fire last = true
         /\ last_satisfied both_fire last = Some m
         /\ printed out = if _log_to_screen both_fire then Some m else None.
Proof.
  eexists. split; [vm_compute; reflexivity|].
  apply (proj2 (stopping_criteria_keep_last_message both_fire) 3%nat).
  vm_compute. reflexivity.
Defined.

Lemma unchanged_counter_update_witness :
  let st0 := initial_state small_steps in
  let st1 := loop_body small_steps st0 in
  let st2 := loop_body small_steps st1 in
  let st3 := loop_body small_steps st2 in
  unchanged_iterations st1 = 0
  /\ unchanged_iterations st2 = unchanged_iterations st1 + 1
  /\ unchanged_iterations st3 = unchanged_iterations st2 + 1.
Proof.
  intros st0 st1 st2 st3. split; [|split].
  - apply (proj1 (unchanged_counter_update small_steps st0));
      vm_compute; reflexivity.
  - apply (proj1 (proj2 (unchanged_counter_update small_steps st1)));
      vm_compute; reflexivity.
  - apply (proj2 (proj2 (unchanged_counter_update small_steps st2)));
      vm_compute; reflexivity.
Defined.



Lemma nan_never_crosses_threshold_witness :
  (threshold_crossed lost nan_state = false
   /\ check_threshold lost nan_state = nan_state)
  /\ (fbest (update_best lost nan (initial_state lost)) = infinity
      /\ unchanged_iterations (update_best lost nan (initial_state lost))
         = 0 + 1)
  /\ has_stopping_criterion no_criterion = false
  /\ (exists st,
         run_loop lost 5 = Returns st
         /\ halt st <> Some (ThresholdCrossed infinity)).
Proof.
  split; [|split; [|split]].
  - apply (proj1 (nan_never_crosses_threshold lost)). reflexivity.
  - apply (proj1 (proj2 (nan_never_crosses_threshold lost))). reflexivity.
  - apply (proj1 (proj2 (proj2 (nan_never_crosses_threshold no_criterion)))
             5%nat no_criterion_error).
    reflexivity.
  - eexists. split; [vm_compute; reflexivity|].
    refine (proj2 (proj2 (proj2 (nan_never_crosses_threshold lost)))
              _ 5%nat _ _ _);
      [intros o; reflexivity | vm_compute; reflexivity].
Defined.

(** An optimiser that reports trouble ends the run before the maximum
    number of iterations: with the maximum 5 as the only criterion enabled,
    the run makes one pass. *)
Lemma trouble_ends_run_early :
  only_max_iterations ill_conditioned 5
  /\ (exists st,
         run_loop ill_conditioned 3 = Returns st
         /\ iteration st = 1
         /\ halt st = Some (OptimiserError "Ill-conditioned matrix."))
  /\ ~ makes_max_passes ill_conditioned 5.
Proof.
  split; [repeat split|]. split.
  - eexists. split; [vm_compute; reflexivity|]. split; reflexivity.
  - intros Hmax.
    assert (Hrun : exists st, run_loop ill_conditioned 3 = Returns st
                              /\ iteration st = 1)
      by (eexists; split; [vm_compute; reflexivity|reflexivity]).
    destruct Hrun as (st & Hrun & Hone).
    apply Hmax in Hrun. rewrite Hone in Hrun. discriminate Hrun.
Qed.

Lemma run_iteration_count_witness :
  (exists st,
      run_loop only_max_3 5 = Returns st
      /\ 1 <= iteration st
      /\ iteration st <= Z.max 3 1)
  /\ (run_loop only_max_0 2
      = Returns (loop_body only_max_0 (initial_state only_max_0))
      /\ iteration (loop_body only_max_0 (initial_state only_max_0)) = 1)
  /\ (let final := after only_max_3 (Z.to_nat (Z.max 3 1))
                     (initial_state only_max_3) in
      run_loop only_max_3 4 = Returns final
      /\ iteration final = Z.max 3 1
      /\ halt final = Some (MaxIterationsReached (Z.max 3 1))).
Proof.
  split; [|split].
  - eexists. split; [vm_compute; reflexivity|].
    assert (Hrun : run_loop only_max_3 5
                   = Returns (after only_max_3 3 (initial_state only_max_3)))
      by (vm_compute; reflexivity).
    destruct (proj1 (run_iteration_count only_max_3) 5%nat _ Hrun)
      as [Hone Hmax].
    split; [exact Hone|]. apply Hmax. reflexivity.
  - apply (proj1 (proj2 (run_iteration_count only_max_0)));
      [reflexivity|lia].
  - apply (proj2 (proj2 (run_iteration_count only_max_3)) 3);
      try reflexivity.
    cbn. lia.
Defined.

End OnExamples.

Section OnArrayExamples.

Import PopulationBasedOptimiser Examples.

Lemma suggested_population_size_rounds_up_witness :
  let n := _suggested_population_size idle_swarm in
  let r := suggested_population_size idle_swarm (Some 4) in
  n = 13 /\ r = 16
  /\ r = ceil_div n 4 * 4
  /\ (4 | r)
  /\ n <= r < n + 4
  /\ ((4 | n) -> r = n).
Proof.
  intros n r. split; [reflexivity|]. split; [reflexivity|].
  apply (suggested_population_size_rounds_up idle_swarm 4). lia.
Defined.

(** After [set_population_size(None)] the population size is [None],
    while the heuristic suggests 13. *)
Lemma set_population_size_none_example :
  population_size idle_swarm = Some 13
  /\ exists self',
       set_population_size idle_swarm None = Ok self'
       /\ population_size self' = None
       /\ _suggested_population_size self' = 13.
Proof.
  split; [reflexivity|]. eexists. repeat split.
Qed.

Lemma set_population_size_cases_witness :
  (forall n : option Z,
      set_population_size running_swarm n
      = Raise (Exception "Cannot change population size during run."))
  /\ (forall n : Z,
         n < 1 ->
         set_population_size idle_swarm (Some n)
         = Raise (ValueError "Population size must be at least 1."))
  /\ (forall n : Z,
         1 <= n ->
         exists self',
           set_population_size idle_swarm (Some n) = Ok self'
           /\ population_size self' = Some n)
  /\ (exists self',
         set_population_size idle_swarm None = Ok self'
         /\ population_size self' = None).
Proof.
  split.
  - apply (proj1 (set_population_size_cases running_swarm)). reflexivity.
  - apply (proj2 (set_population_size_cases idle_swarm)). reflexivity.
Defined.

Local Open Scope Q_scope.



End OnArrayExamples.

(** * Further properties *)

(** ** More on comparisons of floats *)

Section MoreFloatFacts.

Local Open Scope float_scope.

Lemma ltb_irrefl (x : float) : (x <? x) = false.
Proof.
  rewrite ltb_spec. unfold SFltb.
  destruct (Prim2SF x) eqn:E; try reflexivity;
    rewrite SFcompare_refl by congruence; reflexivity.
Qed.

Lemma ltb_asym (x y : float) : (x <? y) = true -> (y <? x) = false.
Proof.
  rewrite !ltb_spec. unfold SFltb.
  rewrite (SFcompare_antisym (Prim2SF x) (Prim2SF y)).
  destruct (SFcompare (Prim2SF x) (Prim2SF y)) as [[| |]|];
    simpl; congruence.
Qed.

Lemma ltb_not_nan_l (x y : float) : (x <? y) = true -> is_nan x = false.
Proof.
  intros Hlt. destruct (is_nan x) eqn:Hnan; [|reflexivity].
  rewrite (ltb_nan_l x y Hnan) in Hlt. discriminate Hlt.
Qed.

Lemma is_nan_opp (x : float) : is_nan (- x) = is_nan x.
Proof.
  unfold is_nan. rewrite !FloatAxioms.eqb_spec, opp_spec. unfold SFeqb.
  destruct (Prim2SF x) as [s|s| |s m e]; try reflexivity;
    rewrite !SFcompare_refl by (cbn; congruence); reflexivity.
Qed.

End MoreFloatFacts.

(** ** More on the loop of [run()] *)

Section DriverFurther.

Import Optimiser Optimisation.

Context {S : Type} `{AskTell S}.

Variable self : t S.

(** The variables after the body up to the iteration count, one by one. *)
Lemma iterate_fields (st : run_state S) :
  let fs := fst (ask_evaluate_tell self st) in
  let o := snd (ask_evaluate_tell self st) in
  let fnew := Optimiser.fbest o in
  let improved := (fnew <? fbest st)%float in
  let log := logging self && (iteration st >=? next_message st) in
  the_optimiser (iterate self st) = o
  /\ iteration (iterate self st) = iteration st + 1
  /\ evaluations (iterate self st)
     = evaluations st + Z.of_nat (List.length fs)
  /\ unchanged_iterations (iterate self st)
     = (if improved
        then if (abs (fnew - fbest st) <? _min_significant_change self)%float
             then unchanged_iterations st + 1
             else 0
        else unchanged_iterations st + 1)
  /\ fbest (iterate self st) = (if improved then fnew else fbest st)
  /\ fbest_user (iterate self st)
     = (if improved then user_value self fnew else fbest_user st)
  /\ next_message (iterate self st)
     = (if log
        then if iteration st <? message_warm_up
             then iteration st + 1
             else message_interval * (1 + iteration st / message_interval)
        else next_message st)
  /\ running (iterate self st) = running st
  /\ halt (iterate self st) = halt st
  /\ rows (iterate self st)
     = (if log
        then rows st
             ++ [ {| row_iteration := iteration st;
                     row_evaluations :=
                       evaluations st + Z.of_nat (List.length fs);
                     row_best := if improved then user_value self fnew
                                 else fbest_user st |} ]
        else rows st).
Proof.
  unfold iterate.
  destruct (ask_evaluate_tell self st) as [fs o]. cbn [fst snd].
  unfold update_best. cbn [fbest unchanged_iterations].
  destruct (Optimiser.fbest o <? fbest st)%float;
    unfold count_evaluations, show_progress;
    cbn [iteration next_message evaluations];
    destruct (logging self && (iteration st >=? next_message st));
    repeat split.
Qed.

(** The same for a whole pass: the checks leave these variables alone. *)
Lemma loop_body_progress (st : run_state S) :
  the_optimiser (loop_body self st) = the_optimiser (iterate self st)
  /\ iteration (loop_body self st) = iteration (iterate self st)
  /\ evaluations (loop_body self st) = evaluations (iterate self st)
  /\ unchanged_iterations (loop_body self st)
     = unchanged_iterations (iterate self st)
  /\ fbest (loop_body self st) = fbest (iterate self st)
  /\ fbest_user (loop_body self st) = fbest_user (iterate self st)
  /\ next_message (loop_body self st) = next_message (iterate self st)
  /\ rows (loop_body self st) = rows (iterate self st).
Proof. apply check_stopping_criteria_progress. Qed.

Lemma next_log_step (k : Z) :
  0 <= k ->
  (k >=? next_log k) = logged_at k
  /\ (if logged_at k
      then if k <? message_warm_up then k + 1
           else message_interval * (1 + k / message_interval)
      else next_log k) = next_log (k + 1).
Proof.
  intros Hk. unfold next_log, logged_at, message_warm_up, message_interval.
  destruct (Z.leb_spec k 3) as [Hsmall|Hlarge].
  - cbn [orb]. split; [rewrite Z.geb_leb; apply Z.leb_le; lia|].
    destruct (Z.ltb_spec k 3); destruct (Z.leb_spec (k + 1) 3);
      try lia.
    assert (k = 3) by lia. subst k. reflexivity.
  - cbn [orb].
    destruct (Z.leb_spec (k + 1) 3); [lia|].
    destruct (Z.ltb_spec k 3); [lia|].
    destruct (Z.eqb_spec (k mod 20) 0) as [Hmod|Hmod]; split.
    + rewrite Z.geb_leb. apply Z.leb_le. Z.div_mod_to_equations. lia.
    + Z.div_mod_to_equations. lia.
    + rewrite Z.geb_leb. apply Z.leb_gt. Z.div_mod_to_equations. lia.
    + Z.div_mod_to_equations. lia.
Qed.

Lemma next_message_after (k : nat) :
  logging self = true ->
  next_message (after self k (initial_state self)) = next_log (Z.of_nat k).
Proof.
  intros Hlog. induction k as [|k IH]; [reflexivity|].
  rewrite after_succ_l.
  destruct (loop_body_progress (after self k (initial_state self)))
    as (_ & _ & _ & _ & _ & _ & -> & _).
  destruct (iterate_fields (after self k (initial_state self)))
    as (_ & _ & _ & _ & _ & _ & -> & _).
  rewrite Hlog, IH, after_iteration. cbn [initial_state iteration andb].
  change (0 + Z.of_nat k) with (Z.of_nat k).
  destruct (next_log_step (Z.of_nat k) ltac:(lia)) as [-> Hnext].
  rewrite Nat2Z.inj_succ. unfold Z.succ. exact Hnext.
Qed.

(** X8.  Without logging no row is written.  With logging, the pass that
    starts with iteration count [k] writes a row exactly when [k <= 3] or
    [k] is a multiple of 20, and the row holds [k], the evaluation count
    and the best score in the user's sign as they are after that pass. *)
Theorem log_cadence :
  (logging self = false ->
   forall k : nat, rows (after self k (initial_state self)) = [])
  /\ (logging self = true ->
      forall k : nat,
        let st := after self k (initial_state self) in
        let st' := after self (Datatypes.S k) (initial_state self) in
        rows st'
        = rows st
          ++ (if logged_at (Z.of_nat k)
              then [ {| row_iteration := Z.of_nat k;
                        row_evaluations := evaluations st';
                        row_best := fbest_user st' |} ]
              else [])).
Proof.
  split.
  - intros Hlog. induction k as [|k IH]; [reflexivity|].
    rewrite after_succ_l.
    destruct (loop_body_progress (after self k (initial_state self)))
      as (_ & _ & _ & _ & _ & _ & _ & ->).
    destruct (iterate_fields (after self k (initial_state self)))
      as (_ & _ & _ & _ & _ & _ & _ & _ & _ & ->).
    rewrite Hlog. exact IH.
  - intros Hlog k st st'.
    assert (Hit : iteration st = Z.of_nat k)
      by (unfold st; rewrite after_iteration; reflexivity).
    assert (Hnext : next_message st = next_log (Z.of_nat k))
      by (apply next_message_after, Hlog).
    unfold st'. rewrite after_succ_l. fold st.
    destruct (loop_body_progress st)
      as (_ & _ & -> & _ & _ & -> & _ & ->).
    destruct (iterate_fields st)
      as (_ & _ & -> & _ & _ & -> & _ & _ & _ & ->).
    rewrite Hlog, Hnext, !Hit. cbn [andb].
    destruct (next_log_step (Z.of_nat k) ltac:(lia)) as [-> _].
    destruct (logged_at (Z.of_nat k)); [|rewrite app_nil_r]; reflexivity.
Qed.

Lemma ask_evaluate_tell_length (st : run_state S) :
  List.length (fst (ask_evaluate_tell self st))
  = List.length (fst (ask (the_optimiser st))).
Proof.
  unfold ask_evaluate_tell. destruct (ask (the_optimiser st)) as [xs o].
  cbn [fst]. apply length_map.
Qed.

(** X9.  With an optimiser whose [ask()] always gives [p] points, the
    evaluation count after [k] passes is [p * k]. *)
Theorem evaluations_count (p : nat) :
  (forall o : S, List.length (fst (ask o)) = p) ->
  forall k : nat,
    evaluations (after self k (initial_state self))
    = Z.of_nat p * Z.of_nat k.
Proof.
  intros Hp. induction k as [|k IH]; [cbn; lia|].
  rewrite after_succ_l.
  destruct (loop_body_progress (after self k (initial_state self)))
    as (_ & _ & -> & _).
  destruct (iterate_fields (after self k (initial_state self)))
    as (_ & _ & -> & _).
  rewrite IH, ask_evaluate_tell_length, Hp. lia.
Qed.

Lemma fbest_after_not_nan (k : nat) :
  is_nan (fbest (after self k (initial_state self))) = false.
Proof.
  induction k as [|k IH]; [reflexivity|].
  rewrite after_succ_l.
  destruct (loop_body_progress (after self k (initial_state self)))
    as (_ & _ & _ & _ & -> & _).
  destruct (iterate_fields (after self k (initial_state self)))
    as (_ & _ & _ & _ & -> & _).
  match goal with
  | |- context [if ?b then _ else _] => destruct b eqn:Hlt
  end; [exact (ltb_not_nan_l _ _ Hlt)|exact IH].
Qed.

(** X10.  The best score kept by [run()] is never NaN, and neither is the
    [fbest] it returns. *)
Theorem best_score_never_nan :
  (forall k : nat,
      is_nan (fbest (after self k (initial_state self))) = false)
  /\ (forall (fuel : nat) (out : run_output),
         run self fuel = Returns out ->
         is_nan (snd (returned out)) = false).
Proof.
  split; [exact fbest_after_not_nan|].
  intros fuel out Hrun. unfold run in Hrun.
  destruct (run_loop self fuel) as [st| |] eqn:Hloop; try discriminate.
  injection Hrun as <-.
  destruct (run_loop_last_pass self fuel st Hloop) as (k & _ & Hst & _).
  cbn [finish returned snd]. rewrite Hst, <- after_succ_l.
  rewrite (after_fbest_user self (Datatypes.S k)) by reflexivity.
  unfold user_value. destruct (_minimising self);
    [|rewrite is_nan_opp]; apply fbest_after_not_nan.
Qed.

(** X11.  A pass never makes the best score worse: the new best score is
    not above the old one, it is the old one or the optimiser's [fbest()],
    and the optimiser's [fbest()] is not below it. *)
Theorem best_score_never_worse (st : run_state S) :
  let st' := loop_body self st in
  let fnew := Optimiser.fbest (the_optimiser st') in
  (fbest st <? fbest st')%float = false
  /\ (fnew <? fbest st')%float = false
  /\ (fbest st' = fbest st \/ fbest st' = fnew).
Proof.
  intros st' fnew. unfold fnew, st'.
  destruct (loop_body_progress st) as (-> & _ & _ & _ & -> & _).
  destruct (iterate_fields st) as (-> & _ & _ & _ & -> & _).
  match goal with
  | |- context [if ?b then _ else _] => destruct b eqn:Hlt
  end.
  - split; [exact (ltb_asym _ _ Hlt)|].
    split; [apply ltb_irrefl|right; reflexivity].
  - split; [apply ltb_irrefl|]. split; [exact Hlt|left; reflexivity].
Qed.

Lemma unchanged_after_bounds (k : nat) :
  0 <= unchanged_iterations (after self k (initial_state self))
  <= Z.of_nat k.
Proof.
  induction k as [|k IH]; [cbn; lia|].
  rewrite after_succ_l.
  destruct (loop_body_progress (after self k (initial_state self)))
    as (_ & _ & _ & -> & _).
  destruct (iterate_fields (after self k (initial_state self)))
    as (_ & _ & _ & -> & _).
  repeat match goal with
         | |- context [if ?b then _ else _] => destruct b
         end; lia.
Qed.

(** X12.  The counter of unchanged iterations is never negative and never
    above the number of passes made; after a pass it is 0 or one more than
    before. *)
Theorem unchanged_counter_bounds :
  (forall k : nat,
      0 <= unchanged_iterations (after self k (initial_state self))
      <= iteration (after self k (initial_state self)))
  /\ (forall st : run_state S,
         unchanged_iterations (loop_body self st) = 0
         \/ unchanged_iterations (loop_body self st)
            = unchanged_iterations st + 1).
Proof.
  split.
  - intros k. rewrite after_iteration. cbn [initial_state iteration].
    apply unchanged_after_bounds.
  - intros st.
    destruct (loop_body_progress st) as (_ & _ & _ & -> & _).
    destruct (iterate_fields st) as (_ & _ & _ & -> & _).
    repeat match goal with
           | |- context [if ?b then _ else _] => destruct b
           end; auto.
Qed.

End DriverFurther.

(** ** What a halt message tells, and what logging does not change *)

Section DriverMessages.

Import Optimiser Optimisation.

Context {S : Type} `{AskTell S}.

Variable self : t S.

Lemma last_satisfied_holds (st : run_state S) (m : halt_message) :
  last_satisfied self st = Some m -> message_holds self m st.
Proof.
  unfold last_satisfied.
  destruct (optimiser_stopped st) eqn:Estop.
  { intros Hm. injection Hm as <-. split; [exact Estop|reflexivity]. }
  destruct (threshold_crossed self st) eqn:Eth.
  { destruct (threshold_crossed_message self st Eth) as (th & Hth & ->).
    intros Hm. injection Hm as <-. split; [exact Hth|].
    unfold threshold_crossed in Eth. rewrite Hth in Eth. exact Eth. }
  destruct (max_unchanged_reached self st) eqn:Eun.
  { intros Hm. injection Hm as <-. split; [reflexivity|].
    unfold max_unchanged_reached in Eun.
    destruct (_max_unchanged_iterations self) as [n|]; [|discriminate].
    exists n. split; [reflexivity|].
    rewrite Z.geb_leb in Eun. apply Z.leb_le, Eun. }
  destruct (max_iterations_reached self st) eqn:Emax; [|discriminate].
  intros Hm. injection Hm as <-. split; [reflexivity|].
  unfold max_iterations_reached in Emax.
  destruct (_max_iterations self) as [n|]; [|discriminate].
  exists n. split; [reflexivity|].
  rewrite Z.geb_leb in Emax. apply Z.leb_le, Emax.
Qed.

Lemma message_holds_progress (m : halt_message) (a b : run_state S) :
  same_progress a b -> message_holds self m b -> message_holds self m a.
Proof.
  intros (Ho & Hi & _ & Hu & Hf & _). unfold message_holds.
  destruct m; rewrite ?Ho, ?Hi, ?Hu, ?Hf; exact (fun x => x).
Qed.

(** X14.  A run that returns is not running and has a halt message, and
    the message tells the truth about the final state: the reported
    iteration count is the final one and has reached the maximum; the
    reported unchanged count is the final one, has reached its maximum and
    is at most the iteration count; the reported threshold is the one set
    and the best score is below it; the reported error is what the
    optimiser's [stop()] returns. *)
Theorem halt_message_sound (fuel : nat) (st : run_state S) :
  run_loop self fuel = Returns st ->
  running st = false
  /\ unchanged_iterations st <= iteration st
  /\ exists m, halt st = Some m /\ message_holds self m st.
Proof.
  intros Hloop.
  destruct (run_loop_last_pass self fuel st Hloop)
    as (k & _ & Hst & Hsome & Hbefore).
  split; [|split].
  - rewrite Hst, loop_body_running, Hsome. apply andb_false_r.
  - rewrite Hst, <- after_succ_l, after_iteration.
    cbn [initial_state iteration].
    apply (unchanged_after_bounds self (Datatypes.S k)).
  - destruct (some_criterion_last_satisfied self _ Hsome) as [m Hm].
    exists m. split.
    + rewrite Hst. unfold loop_body.
      rewrite check_stopping_criteria_halt, Hm. reflexivity.
    + rewrite Hst. unfold loop_body.
      apply (message_holds_progress m _ _
               (check_stopping_criteria_progress self _)).
      apply last_satisfied_holds, Hm.
Qed.

(** With a maximum number of iterations a run makes no more passes than
    the maximum, or one pass. *)
Lemma run_loop_at_most (n : Z) (fuel : nat) (st : run_state S) :
  _max_iterations self = Some n ->
  run_loop self fuel = Returns st ->
  1 <= iteration st <= Z.max n 1.
Proof.
  intros Hmax Hloop.
  destruct (run_loop_last_pass self fuel st Hloop)
    as (k & _ & Hst & _ & Hbefore).
  assert (Hit : iteration st = Z.of_nat k + 1).
  { rewrite Hst, loop_body_iteration, after_iteration. reflexivity. }
  destruct k as [|k]; [lia|].
  assert (Hrun := Hbefore (Datatypes.S k) (le_n _)).
  rewrite after_succ_l, loop_body_running in Hrun.
  apply andb_true_iff in Hrun. destruct Hrun as [_ Hnone].
  apply negb_true_iff in Hnone. unfold some_criterion in Hnone.
  repeat (apply orb_false_iff in Hnone; destruct Hnone as [Hnone ?]).
  unfold max_iterations_reached in Hnone. rewrite Hmax in Hnone.
  rewrite iterate_iteration, after_iteration, Z.geb_leb in Hnone.
  apply Z.leb_gt in Hnone. cbn [initial_state iteration] in Hnone. lia.
Qed.

Lemma run_loop_returns (n : Z) (fuel : nat) :
  _max_iterations self = Some n ->
  (Z.to_nat (Z.max n 1) < fuel)%nat ->
  exists st, run_loop self fuel = Returns st.
Proof.
  intros Hmax Hfuel. unfold run_loop, has_stopping_criterion.
  rewrite Hmax. cbn [is_not_None orb negb].
  destruct fuel as [|fuel]; [lia|].
  destruct (while_running_halts self n Hmax fuel (initial_state self))
    as [st ->]; [cbn [initial_state iteration]; lia|lia|].
  eauto.
Qed.

End DriverMessages.

(** ** Logging settings *)

Section Logging.

Import Optimiser Optimisation.

Context {S : Type} `{AskTell S}.

Variables a b : t S.

Hypothesis Hsame : same_search a b.






End Logging.

(** ** The constructor of the driver and its setters *)

Section DriverSettings.

Import Optimiser Optimisation.

Context {S : Type} `{AskTell S}.

Lemma set_log_same_search (self : t S) :
  (forall enabled : bool, same_search self (set_log_to_screen self enabled))
  /\ (forall (filename : option string) (csv : bool),
         same_search self (set_log_to_file self filename csv)).
Proof. split; intros; repeat split. Qed.







End DriverSettings.

(** ** [fmin] *)

Section FminFacts.

Import Optimiser Optimisation Fmin.

Context {S : Type} `{AskTell S}.

Variables (f : point -> float) (x0 : point) (threshold : option float).
Variables (max_iter max_unchanged : option Z) (verbose : bool).
Variable method : point -> result S.

Lemma configure_cases (o : S) :
  method x0 = Ok o ->
  (not_negative max_iter -> not_negative max_unchanged ->
   configure f x0 threshold max_iter max_unchanged verbose method
   = Ok (configured f threshold max_iter max_unchanged verbose o))
  /\ (~ (not_negative max_iter /\ not_negative max_unchanged) ->
      configure f x0 threshold max_iter max_unchanged verbose method
      = Raise negative_maximum).
Proof.
  intros Hmethod. unfold configure, __init__.
  cbn [n_parameters is_LogPDF negb]. rewrite Z.eqb_refl, Hmethod.
  unfold not_negative, configured, negative_maximum.
  destruct max_iter as [n|]; [destruct (Z.ltb_spec n 0) as [Hn0|Hn0]|];
    (destruct max_unchanged as [u|];
     [destruct (Z.ltb_spec u 0) as [Hu0|Hu0]|]);
    unfold set_max_iterations, set_max_unchanged_iterations;
    cbn [negb bind Z.ltb Z.compare _max_iterations];
    rewrite ?(proj2 (Z.ltb_lt _ _) Hn0), ?(proj2 (Z.ltb_lt _ _) Hu0),
      ?(proj2 (Z.ltb_ge _ _) Hn0), ?(proj2 (Z.ltb_ge _ _) Hu0);
    cbn [bind];
    rewrite ?(proj2 (Z.ltb_lt _ _) Hu0), ?(proj2 (Z.ltb_ge _ _) Hu0);
    change ((0x1.5fd7fe1796495p-37 <? 0)%float) with false;
    cbn [bind];
    (split; [intros Hn Hu | intros Hneg]);
    try reflexivity; try lia;
    try (destruct verbose; reflexivity);
    try (exfalso; apply Hneg; split; solve [lia | exact I]).
Qed.


(** X17.  When the optimiser is created and no maximum is negative:
    [fmin] without any criterion raises the error of [run()]; with a
    maximum number of iterations [n] it returns, after at most [max(n, 1)]
    passes, the optimiser's best point and the best score as minimised,
    which is not NaN. *)
Theorem fmin_outcome (o : S) :
  method x0 = Ok o ->
  not_negative max_iter -> not_negative max_unchanged ->
  (threshold = None -> max_iter = None -> max_unchanged = None ->
   forall fuel,
     fmin f x0 threshold max_iter max_unchanged verbose method fuel
     = Raises no_criterion_error)
  /\ (forall n, max_iter = Some n ->
       forall fuel,
         (Z.to_nat (Z.max n 1) < fuel)%nat ->
         exists opt st,
           configure f x0 threshold max_iter max_unchanged verbose method
           = Ok opt
           /\ run_loop opt fuel = Returns st
           /\ fmin f x0 threshold max_iter max_unchanged verbose method
                fuel
              = Returns (xbest (the_optimiser st), fbest st)
           /\ is_nan (fbest st) = false
           /\ 1 <= iteration st <= Z.max n 1).
Proof.
  intros Hmethod Hn Hu.
  destruct (configure_cases o Hmethod) as [Hok _].
  specialize (Hok Hn Hu). split.
  - intros Hth Hmax Hun fuel. unfold fmin. rewrite Hok.
    assert (Hraise : run (configured f threshold max_iter max_unchanged verbose o) fuel = Raises no_criterion_error).
    { apply run_raises. split; [|reflexivity].
      apply has_stopping_criterion_false. unfold configured.
      cbn [_max_iterations _max_unchanged_iterations _threshold].
      repeat split; assumption. }
    rewrite Hraise. reflexivity.
  - intros n Hmax fuel Hfuel.
    assert (Hcfg : _max_iterations (configured f threshold max_iter max_unchanged verbose o) = Some n) by exact Hmax.
    destruct (run_loop_returns (configured f threshold max_iter max_unchanged verbose o) n fuel Hcfg Hfuel)
      as [st Hloop].
    exists (configured f threshold max_iter max_unchanged verbose o), st.
    split; [exact Hok|]. split; [exact Hloop|].
    destruct (run_loop_last_pass (configured f threshold max_iter max_unchanged verbose o) fuel st Hloop)
      as (k & _ & Hst & _).
    assert (Huser : fbest_user st = fbest st).
    { rewrite Hst, <- after_succ_l.
      rewrite (after_fbest_user (configured f threshold max_iter max_unchanged verbose o) (Datatypes.S k))
        by reflexivity.
      reflexivity. }
    split; [|split].
    + unfold fmin. rewrite Hok. unfold run. rewrite Hloop.
      unfold finish. cbn [returned]. rewrite Huser. reflexivity.
    + rewrite Hst, <- after_succ_l. apply fbest_after_not_nan.
    + apply (run_loop_at_most (configured f threshold max_iter max_unchanged verbose o) n fuel st Hcfg Hloop).
Qed.

End FminFacts.

(** ** More on the triangle-wave transform *)

Section TriangleWaveFurther.

Import TriangleWaveTransform.

Local Open Scope Q_scope.











End TriangleWaveFurther.

(** ** The constructor of [Optimiser] *)

Section OptimiserConstructor.

Import Optimiser.

Local Open Scope Q_scope.





End OptimiserConstructor.

Section OptimiserRejections.

Import Optimiser.

Local Open Scope Q_scope.

(** X2.  The constructor of [Optimiser] checks in this order and raises
    at the first failure: an empty [x0]; boundaries of another dimension;
    an [x0] outside the boundaries; then a scalar [sigma0] that is not
    greater than zero, a vector [sigma0] of another length, or a vector
    [sigma0] with an entry that is not greater than zero. *)
Theorem constructor_rejections (x0 : Np.array) (sigma0 : sigma0_arg)
  (boundaries : option Boundaries.t) :
  (x0 = [] ->
   __init__ x0 sigma0 boundaries
   = Raise (ValueError "Problem dimension must be greater than zero."))
  /\ (x0 <> [] ->
      (forall b,
          boundaries = Some b ->
          Boundaries.n_parameters b <> Z.of_nat (List.length x0) ->
          __init__ x0 sigma0 boundaries
          = Raise (ValueError
                     "Boundaries must have same dimension as starting point."))
      /\ (forall b,
             boundaries = Some b ->
             Boundaries.n_parameters b = Z.of_nat (List.length x0) ->
             Boundaries.check b x0 = false ->
             __init__ x0 sigma0 boundaries
             = Raise (ValueError
                        "Initial position must lie within given boundaries."))
      /\ ((forall b, boundaries = Some b ->
                     Boundaries.n_parameters b = Z.of_nat (List.length x0)
                     /\ Boundaries.check b x0 = true) ->
          (forall s, sigma0 = Sigma0Scalar s -> s <= 0 ->
                     __init__ x0 sigma0 boundaries
                     = Raise (ValueError
                                "Initial standard deviation must be greater than zero."))
          /\ (forall v, sigma0 = Sigma0Vector v ->
                        List.length v <> List.length x0 ->
                        exists msg,
                          __init__ x0 sigma0 boundaries
                          = Raise (ValueError msg))
          /\ (forall v, sigma0 = Sigma0Vector v ->
                        List.length v = List.length x0 ->
                        Exists (fun s => s <= 0) v ->
                        __init__ x0 sigma0 boundaries
                        = Raise (ValueError
                                   "Initial standard deviations must be greater than zero.")))).
Proof.
  split.
  - intros ->. reflexivity.
  - intros Hx0. unfold __init__.
    assert (Hd : (Z.of_nat (List.length x0) <? 1)%Z = false).
    { apply Z.ltb_ge. destruct x0; [congruence|cbn [List.length]; lia]. }
    rewrite Hd. split; [|split].
    + intros b -> Hdim. apply Z.eqb_neq in Hdim. rewrite Hdim. reflexivity.
    + intros b -> Hdim Hcheck. apply Z.eqb_eq in Hdim.
      rewrite Hdim, Hcheck. reflexivity.
    + intros Hok.
      assert (Hpass : (if match boundaries with
                            | Some b =>
                                negb (Boundaries.n_parameters b
                                      =? Z.of_nat (List.length x0))%Z
                            | None => false
                            end
                       then true
                       else match boundaries with
                            | Some b => negb (Boundaries.check b x0)
                            | None => false
                            end) = false).
      { destruct boundaries as [b|]; [|reflexivity].
        destruct (Hok b eq_refl) as [Hdim Hcheck].
        apply Z.eqb_eq in Hdim. rewrite Hdim, Hcheck. reflexivity. }
      destruct (match boundaries with
                | Some b =>
                    negb (Boundaries.n_parameters b
                          =? Z.of_nat (List.length x0))%Z
                | None => false
                end); [discriminate|].
      rewrite Hpass. unfold derive_sigma0. split; [|split].
      * intros s -> Hs. apply Qle_bool_iff in Hs. rewrite Hs. reflexivity.
      * intros v -> Hlen.
        assert (Hne : (Z.of_nat (List.length v)
                       =? Z.of_nat (List.length x0))%Z = false)
          by (apply Z.eqb_neq; lia).
        rewrite Hne. cbn [negb bind]. eexists. reflexivity.
      * intros v -> Hlen Hex. rewrite Hlen, Z.eqb_refl. cbn [negb].
        assert (Hneg : existsb (fun s => Qle_bool s 0) v = true).
        { apply existsb_exists. apply Exists_exists in Hex.
          destruct Hex as (s & Hin & Hs). exists s.
          split; [exact Hin|apply Qle_bool_iff, Hs]. }
        rewrite Hneg. reflexivity.
Qed.

End OptimiserRejections.

(** ** Population size and workers *)

Section PopulationFurther.

Import PopulationBasedOptimiser.

Context {E : Type} `{Algorithm E}.

(** X3.  Whatever [round_up_to_multiple_of] is, [None], an integer above
    1 or any other integer, [suggested_population_size] is at least the
    suggestion of the heuristic and exceeds it by less than the multiple;
    without a multiple above 1 it is the suggestion itself. *)
Theorem suggested_population_size_at_least (self : t E) (m : option Z) :
  let n := _suggested_population_size self in
  let r := suggested_population_size self m in
  n <= r
  /\ r < n + match m with
             | Some k => Z.max k 1
             | None => 1
             end
  /\ (match m with
      | Some k => k <= 1
      | None => True
      end -> r = n).
Proof.
  intros n r. unfold r, suggested_population_size. fold n.
  destruct m as [k|]; [|repeat split; lia].
  destruct (Z.gtb_spec k 1) as [Hk|Hk].
  - destruct (round_up_bounds n k ltac:(lia)) as [Hbounds _].
    cbn zeta in Hbounds. repeat split; lia.
  - repeat split; lia.
Qed.

End PopulationFurther.

Section ParallelFacts.

Import Parallel.

(** X7.  After [set_parallel], whatever the setting was before: the
    number of workers is at least 1 when the machine has at least one
    core; [parallel()] is [False] exactly for [False] and for integers
    below 1; it is the number passed in for an integer from 1 on, and the
    core count for [True]. *)
Theorem set_parallel_workers (cpu_count : Z) (self : settings)
  (arg : parallel_arg) :
  1 <= cpu_count ->
  let self' := set_parallel cpu_count self arg in
  1 <= _n_workers self'
  /\ self' = set_parallel cpu_count initial arg
  /\ (parallel self' = None
      <-> arg = ParallelFalse \/ exists n, arg = ParallelInt n /\ n < 1)
  /\ (forall n, arg = ParallelInt n -> 1 <= n -> parallel self' = Some n)
  /\ (arg = ParallelTrue -> parallel self' = Some cpu_count).
Proof.
  intros Hcpu self'. unfold self', set_parallel, parallel.
  destruct arg as [| |n]; cbn [_parallel _n_workers].
  - split; [exact Hcpu|]. split; [reflexivity|]. split; [|split].
    + split; [discriminate|].
      intros [Hf|(n & Hn & _)]; discriminate.
    + intros n Hn. discriminate Hn.
    + reflexivity.
  - split; [lia|]. split; [reflexivity|]. split; [|split].
    + split; [left; reflexivity|reflexivity].
    + intros n Hn. discriminate Hn.
    + discriminate.
  - destruct (Z.geb_spec n 1) as [Hn|Hn]; cbn [_parallel _n_workers].
    + split; [lia|]. split; [reflexivity|]. split; [|split].
      * split; [discriminate|].
        intros [Hf|(k & Hk & Hlt)]; [discriminate|].
        injection Hk as <-. lia.
      * intros k Hk _. injection Hk as <-. reflexivity.
      * discriminate.
    + split; [lia|]. split; [reflexivity|]. split; [|split].
      * split; [|reflexivity].
        intros _. right. exists n. split; [reflexivity|lia].
      * intros k Hk Hk1. injection Hk as <-. lia.
      * discriminate.
Qed.

End ParallelFacts.

(** ** The further properties on the examples *)

Section FurtherOnExamples.

Import Optimiser Optimisation Examples.

Lemma log_cadence_witness :
  rows (after (set_log_to_screen small_steps false) 3
          (initial_state (set_log_to_screen small_steps false))) = []
  /\ rows (after small_steps 1 (initial_state small_steps))
     = rows (after small_steps 0 (initial_state small_steps))
       ++ [ {| row_iteration := 0;
               row_evaluations :=
                 evaluations (after small_steps 1
                                (initial_state small_steps));
               row_best :=
                 fbest_user (after small_steps 1
                               (initial_state small_steps)) |} ].
Proof.
  split.
  - apply (proj1 (log_cadence (set_log_to_screen small_steps false))).
    reflexivity.
  - apply (proj2 (log_cadence small_steps) eq_refl 0%nat).
Defined.

Lemma evaluations_count_witness :
  evaluations (after small_steps 3 (initial_state small_steps))
  = Z.of_nat 1 * Z.of_nat 3.
Proof.
  apply (evaluations_count small_steps 1). intros o. reflexivity.
Defined.

Lemma best_score_never_nan_witness :
  exists out,
    run maximising 5 = Returns out /\ is_nan (snd (returned out)) = false.
Proof.
  eexists. split; [vm_compute; reflexivity|].
  apply (proj2 (best_score_never_nan maximising) 5%nat).
  vm_compute. reflexivity.
Defined.

Lemma halt_message_sound_witness :
  exists st,
    run_loop both_fire 3 = Returns st
    /\ running st = false
    /\ unchanged_iterations st <= iteration st
    /\ exists m, halt st = Some m /\ message_holds both_fire m st.
Proof.
  eexists. split; [vm_compute; reflexivity|].
  apply (halt_message_sound both_fire 3). vm_compute. reflexivity.
Defined.






Lemma fmin_outcome_witness :
  (Fmin.fmin sum_of_squares [0%float] None None None false
     (candidates_method [[1%float]; [0.5%float]] StopFalse) 5
   = Raises no_criterion_error)
  /\ exists x fx,
       Fmin.fmin sum_of_squares [0%float] None (Some 2) None false
         (candidates_method [[1%float]; [0.5%float]] StopFalse) 3
       = Returns (x, fx)
       /\ is_nan fx = false.
Proof.
  split.
  - apply (proj1 (fmin_outcome sum_of_squares [0%float] None None None
                    false (candidates_method [[1%float]; [0.5%float]]
                             StopFalse) _ eq_refl I I));
      reflexivity.
  - destruct (proj2 (fmin_outcome sum_of_squares [0%float] None (Some 2)
                       None false
                       (candidates_method [[1%float]; [0.5%float]]
                          StopFalse) _ eq_refl ltac:(cbn; lia) I)
                2 eq_refl 3%nat ltac:(cbn; lia))
      as (opt & st & _ & _ & Hfmin & Hnan & _).
    exists (xbest (the_optimiser st)), (fbest st). split; assumption.
Defined.

End FurtherOnExamples.

Section FurtherOnArrayExamples.

Import PopulationBasedOptimiser Examples.

Lemma suggested_population_size_at_least_witness :
  let n := _suggested_population_size idle_swarm in
  (n <= suggested_population_size idle_swarm (Some 4)
   /\ suggested_population_size idle_swarm (Some 4) < n + Z.max 4 1)
  /\ suggested_population_size idle_swarm (Some 0) = n.
Proof.
  intros n. split.
  - destruct (suggested_population_size_at_least idle_swarm (Some 4))
      as (Hlow & Hhigh & _).
    split; assumption.
  - apply (proj2 (proj2 (suggested_population_size_at_least idle_swarm
                           (Some 0)))).
    lia.
Defined.

Lemma set_parallel_workers_witness :
  1 <= Parallel._n_workers
         (Parallel.set_parallel 4 Parallel.initial (Parallel.ParallelInt 0))
  /\ Parallel.parallel
       (Parallel.set_parallel 4 Parallel.initial (Parallel.ParallelInt 3))
     = Some 3.
Proof.
  split.
  - apply (set_parallel_workers 4 Parallel.initial
             (Parallel.ParallelInt 0)).
    lia.
  - apply (proj1 (proj2 (proj2 (proj2
             (set_parallel_workers 4 Parallel.initial
                (Parallel.ParallelInt 3) ltac:(lia))))) 3);
      [reflexivity|lia].
Defined.

Local Open Scope Q_scope.


Lemma constructor_rejections_witness :
  Optimiser.__init__ [] Optimiser.Sigma0None None
  = Raise (ValueError "Problem dimension must be greater than zero.")
  /\ Optimiser.__init__ [5; 0] Optimiser.Sigma0None (Some box)
     = Raise (ValueError
                "Initial position must lie within given boundaries.")
  /\ Optimiser.__init__ [1; 0] (Optimiser.Sigma0Vector [1; 0]) (Some box)
     = Raise (ValueError
                "Initial standard deviations must be greater than zero.").
Proof.
  split; [|split].
  - apply (proj1 (constructor_rejections [] Optimiser.Sigma0None None)).
    reflexivity.
  - apply (proj1 (proj2 (proj2 (constructor_rejections [5; 0]
                                  Optimiser.Sigma0None (Some box))
                           ltac:(discriminate))) box);
      reflexivity.
  - refine (proj2 (proj2 (proj2 (proj2 (proj2
              (constructor_rejections [1; 0]
                 (Optimiser.Sigma0Vector [1; 0]) (Some box))
              _)) _)) [1; 0] eq_refl eq_refl _).
    + discriminate.
    + intros b Hb. injection Hb as <-. split; reflexivity.
    + apply Exists_cons_tl, Exists_cons_hd. discriminate.
Defined.



End FurtherOnArrayExamples.
